(** * PyBTSteward: the Eddystone advertising-structure decoder

    A shallow embedding of [decode_eddystone] from
    [PyBTSteward/decode_eddystone.py], and the properties of its
    specification checked against it.

    The decoder receives one Python 3 [bytes] object.  Indexing a
    [bytes] object yields an [int] in [0..255], slicing yields [bytes],
    iterating yields [int]s.  The two leading parameters of the Python
    function ([state] and [config]) only feed the logger and are left
    out; every [logger] call is a no-op on the returned value. *)

From Stdlib Require Import ZArith Strings.Byte Strings.Ascii.
From Stdlib Require Import Floats.PrimFloat Numbers.Cyclic.Int63.Uint63.
From stdpp Require Import gmap strings list fin_maps.

Open Scope Z_scope.

(** ** Python values, exceptions and results *)

Inductive value :=
  | VNone
  | VInt (z : Z)
  | VStr (s : string)
  | VBytes (bs : list byte)
  | VFloat (f : float).

(** The exceptions the decoder can let escape.  [StructError] is
    [struct.error]. *)
Inductive exn := IndexError | KeyError | TypeError | StructError.

Inductive result (A : Type) : Type :=
  | Ok (a : A)
  | Raise (e : exn).
Arguments Ok {A} a.
Arguments Raise {A} e.

#[global] Instance result_ret : MRet result := fun A a => Ok a.
#[global] Instance result_bind : MBind result := fun A B k m =>
  match m with
  | Ok a => k a
  | Raise e => Raise e
  end.

(** ** Built-ins on [bytes], [list] and [int] *)

(** [b[i]] read as an [int]. *)
Definition int_of_byte (b : byte) : Z := Z.of_N (Byte.to_N b).
Arguments int_of_byte : simpl never.

(** [len(b)]. *)
Definition len {A} (l : list A) : Z := Z.of_nat (length l).

(** [seq[i]] for a list or a bytes object: a negative index counts from
    the end, anything outside the sequence raises [IndexError]. *)
Definition getitem {A} (l : list A) (i : Z) : result A :=
  let j := if i <? 0 then len l + i else i in
  if j <? 0 then Raise IndexError
  else match l !! Z.to_nat j with
       | Some x => Ok x
       | None => Raise IndexError
       end.

(** [b[lo:hi]] for constant non-negative [lo]: slicing never raises, it
    clips to the sequence; an upper bound below [lo] gives the empty
    sequence. *)
Definition slice {A} (l : list A) (lo hi : nat) : list A :=
  take (hi - lo) (drop lo l).

(** [ord(c)]: defined on a one-character [str] only.  The elements of a
    [bytes] object are [int]s, on which [ord] raises [TypeError]. *)
Definition ord (c : byte) : result Z := Raise TypeError.

(** The one-character string with code [c_code]. *)
Definition chr (c_code : Z) : string :=
  String (ascii_of_N (Z.to_N c_code)) EmptyString.

(** ['{:02X}'.format(i)] for [0 <= i < 256]: two upper-case hexadecimal
    digits. *)
Definition hex_digit (d : Z) : ascii :=
  nth (Z.to_nat d) (String.list_ascii_of_string "0123456789ABCDEF") "0"%char.

Definition format_02X (i : Z) : string :=
  String (hex_digit (i / 16)) (String (hex_digit (i mod 16)) EmptyString).

(** [''.join('{:02X}'.format(i) for i in bs)]. *)
Definition hex_join (bs : list byte) : string :=
  String.concat EmptyString (map (fun i => format_02X (int_of_byte i)) bs).

(** [float(n)] for an [int] that fits 63 bits (every field [struct]
    yields here is below [2^32], so the conversion is exact). *)
Definition float_of_int (n : Z) : float :=
  if n <? 0 then PrimFloat.opp (PrimFloat.of_uint63 (Uint63.of_Z (- n)))
  else PrimFloat.of_uint63 (Uint63.of_Z n).

(** [n / d] for an [int] [n] and a [float] [d]: IEEE binary64 division. *)
Definition truediv (n : Z) (d : float) : float :=
  PrimFloat.div (float_of_int n) d.

(** ** [struct.unpack]

    Only the standard-size byte orders ['<'] and ['>'] occur, so there is
    no padding: a format is its byte order and its list of codes. *)

Inductive byte_order := LittleEndian | BigEndian.

Inductive fmt_code :=
  | fmt_b            (* 'b'  signed char      *)
  | fmt_B            (* 'B'  unsigned char    *)
  | fmt_h            (* 'h'  signed short     *)
  | fmt_H            (* 'H'  unsigned short   *)
  | fmt_L            (* 'L'  unsigned long, 4 bytes in standard size *)
  | fmt_s (n : nat). (* 'ns' n bytes          *)

Definition code_size (c : fmt_code) : nat :=
  match c with
  | fmt_b | fmt_B => 1
  | fmt_h | fmt_H => 2
  | fmt_L => 4
  | fmt_s n => n
  end.

Definition calcsize (codes : list fmt_code) : nat :=
  foldr (fun c n => (code_size c + n)%nat) 0%nat codes.

Definition uint_of (o : byte_order) (bs : list byte) : Z :=
  match o with
  | BigEndian => foldl (fun acc b => 256 * acc + int_of_byte b) 0 bs
  | LittleEndian => foldr (fun b acc => int_of_byte b + 256 * acc) 0 bs
  end.

(** Two's complement reading of a [bits]-bit unsigned value. *)
Definition signed (bits : Z) (u : Z) : Z :=
  if u <? 2 ^ (bits - 1) then u else u - 2 ^ bits.

Definition unpack_code (o : byte_order) (c : fmt_code) (bs : list byte) : value :=
  match c with
  | fmt_b => VInt (signed 8 (uint_of o bs))
  | fmt_h => VInt (signed 16 (uint_of o bs))
  | fmt_B | fmt_H | fmt_L => VInt (uint_of o bs)
  | fmt_s _ => VBytes bs
  end.

Fixpoint unpack_fields (o : byte_order) (codes : list fmt_code)
    (buf : list byte) : list value :=
  match codes with
  | [] => []
  | c :: cs =>
      unpack_code o c (take (code_size c) buf)
        :: unpack_fields o cs (drop (code_size c) buf)
  end.

(** [struct.unpack(fmt, buf)]: the buffer must have exactly
    [calcsize(fmt)] bytes, otherwise [struct.error] is raised. *)
Definition struct_unpack (o : byte_order) (codes : list fmt_code)
    (buf : list byte) : result (list value) :=
  if (length buf =? calcsize codes)%nat then Ok (unpack_fields o codes buf)
  else Raise StructError.

(** ** The named tuples

    [T._make(values)] builds the tuple from the unpacked values and
    raises [TypeError] when their number is not the number of fields.
    The fields are typed here by what the format yields for them. *)

Module EddystoneCommon.
Record t := mk {
  adstruct_bytes : Z; sd_length : Z; sd_flags_type : Z; sd_flags_data : Z;
  uuid_list_len : Z; uuid_dt_val : Z; eddystone_uuid : Z; eddy_len : Z;
  sd_type : Z; eddy_uuid_2 : Z; sub_type : Z }.

Definition _make (vs : list value) : result t :=
  match vs with
  | [VInt a; VInt b; VInt c; VInt d; VInt e; VInt f; VInt g; VInt h;
     VInt i; VInt j; VInt k] => Ok (mk a b c d e f g h i j k)
  | _ => Raise TypeError
  end.

(** ['<BBBBBBHBBHB'], 13 bytes. *)
Definition fmt : list fmt_code :=
  [fmt_B; fmt_B; fmt_B; fmt_B; fmt_B; fmt_B; fmt_H; fmt_B; fmt_B; fmt_H; fmt_B].
End EddystoneCommon.

Module EddystoneUID.
Record t := mk { rssi_ref : Z; namespace : list byte; instance : list byte }.

Definition _make (vs : list value) : result t :=
  match vs with
  | [VInt r; VBytes n; VBytes i] => Ok (mk r n i)
  | _ => Raise TypeError
  end.

(** ['>b10s6s'], 17 bytes. *)
Definition fmt : list fmt_code := [fmt_b; fmt_s 10; fmt_s 6].
End EddystoneUID.

Module EddystoneURL.
Record t := mk { rssi_ref : Z; url_scheme : Z }.

Definition _make (vs : list value) : result t :=
  match vs with
  | [VInt r; VInt s] => Ok (mk r s)
  | _ => Raise TypeError
  end.

(** ['>bB'], 2 bytes. *)
Definition fmt : list fmt_code := [fmt_b; fmt_B].
End EddystoneURL.

Module EddystoneTLM.
Record t := mk { tlm_version : Z; vbatt : Z; temp : Z; adv_cnt : Z; sec_cnt : Z }.

Definition _make (vs : list value) : result t :=
  match vs with
  | [VInt v; VInt b; VInt t; VInt a; VInt s] => Ok (mk v b t a s)
  | _ => Raise TypeError
  end.

(** ['>BHhLL'], 13 bytes. *)
Definition fmt : list fmt_code := [fmt_B; fmt_H; fmt_h; fmt_L; fmt_L].
End EddystoneTLM.

(** ** The returned dictionary *)

Abbreviation dict := (gmap string value).

(** [ret[k] += s] on a string entry. *)
Definition iadd_str (ret : dict) (k : string) (s : string) : result dict :=
  match ret !! k with
  | Some (VStr u) => Ok (<[k := VStr (u +:+ s)]> ret)
  | Some _ => Raise TypeError
  | None => Raise KeyError
  end.

(** [for x in xs: ret = body(ret, x)], stopping at the first exception. *)
Fixpoint for_in {A} (xs : list A) (body : dict -> A -> result dict)
    (ret : dict) : result dict :=
  match xs with
  | [] => Ok ret
  | x :: xs' => ret' ← body ret x; for_in xs' body ret'
  end.

(** ** [decode_eddystone] *)

Definition url_schemes : list string :=
  ["http://www."; "https://www."; "http://"; "https://"].

Definition url_expansions : list string :=
  [".com"; ".org"; ".edu"; ".net"; ".info"; ".biz"; ".gov"].

(** The two tests of the URL loop (lines 144 and 151). *)
Definition is_expansion_code (c_code : Z) : bool := c_code <? 14.
Definition is_graphic_ascii (c_code : Z) : bool :=
  (0x20 <? c_code) && (c_code <? 0x7F).

(** The body of the URL loop once [c_code = ord(c)] is known (lines
    144-153); [c] is then the one-character string [chr c_code]. *)
Definition url_byte (ret : dict) (c_code : Z) : result dict :=
  ret ← (if is_expansion_code c_code then
           e ← getitem url_expansions (if c_code <? 7 then c_code else c_code - 7);
           ret ← iadd_str ret "url" e;
           if c_code <? 7 then iadd_str ret "url" "/" else Ok ret
         else Ok ret);
  if is_graphic_ascii c_code then iadd_str ret "url" (chr c_code) else Ok ret.

(** Lines 141-153. *)
Definition url_loop_body (ret : dict) (c : byte) : result dict :=
  c_code ← ord c; url_byte ret c_code.

(** Lines 106-122: the UID sub type. *)
Definition decode_uid (ad_struct : list byte) (ret : dict) : result dict :=
  let ret := <["sub_type" := VStr "uid"]> ret in
  ei ← struct_unpack BigEndian EddystoneUID.fmt (slice ad_struct 13 30)
         ≫= EddystoneUID._make;
  let ret := <["namespace" := VStr (hex_join (EddystoneUID.namespace ei))]> ret in
  let ret := <["instance" := VStr (hex_join (EddystoneUID.instance ei))]> ret in
  Ok (<["rssi_ref" := VInt (EddystoneUID.rssi_ref ei)]> ret).

(** Lines 129-153: the URL sub type. *)
Definition decode_url (ad_struct : list byte) (adstruct_bytes : Z)
    (ret : dict) : result dict :=
  let ret := <["sub_type" := VStr "url"]> ret in
  eu ← struct_unpack BigEndian EddystoneURL.fmt (slice ad_struct 13 20)
         ≫= EddystoneURL._make;
  let ret := <["rssi_ref" := VInt (EddystoneURL.rssi_ref eu)]> ret in
  fudge ← getitem ad_struct (len ad_struct);
  let ret := <["rssi_fudge" := VInt (int_of_byte fudge)]> ret in
  scheme ← getitem url_schemes (Z.land (EddystoneURL.url_scheme eu) 0x03);
  let ret := <["url" := VStr scheme]> ret in
  for_in (slice ad_struct 7 (Z.to_nat adstruct_bytes)) url_loop_body ret.

(** Lines 156-168: the TLM sub type. *)
Definition decode_tlm (ad_struct : list byte) (ret : dict) : result dict :=
  let ret := <["sub_type" := VStr "tlm"]> ret in
  et ← struct_unpack BigEndian EddystoneTLM.fmt (slice ad_struct 13 26)
         ≫= EddystoneTLM._make;
  let ret := <["tlm_version" := VInt (EddystoneTLM.tlm_version et)]> ret in
  if EddystoneTLM.tlm_version et =? 0x00 then
    let ret := <["vbatt" := VFloat (truediv (EddystoneTLM.vbatt et) 1000)]> ret in
    let ret := <["temp" := VFloat (truediv (EddystoneTLM.temp et) 256)]> ret in
    let ret := <["adv_cnt" := VInt (EddystoneTLM.adv_cnt et)]> ret in
    Ok (<["sec_cnt" := VFloat (truediv (EddystoneTLM.sec_cnt et) 10)]> ret)
  else Ok ret.

(** Lines 100-169: "now select based on the sub type".  The three tests
    are consecutive [if] statements, each run on the dictionary the
    previous one left. *)
Definition select_sub_type (ad_struct : list byte) (adstruct_bytes : Z)
    (ec : EddystoneCommon.t) (ret : dict) : result dict :=
  ret ← (if (EddystoneCommon.sub_type ec =? 0x00)
            && ((EddystoneCommon.eddy_len ec =? 0x15)
                || (EddystoneCommon.eddy_len ec =? 0x17))
         then decode_uid ad_struct ret else Ok ret);
  ret ← (if EddystoneCommon.sub_type ec =? 0x10
         then decode_url ad_struct adstruct_bytes ret else Ok ret);
  ret ← (if (EddystoneCommon.sub_type ec =? 0x20)
            && (EddystoneCommon.eddy_len ec =? 0x11)
         then decode_tlm ad_struct ret else Ok ret);
  Ok ret.

(** Lines 52-171.  With a [bytes] argument [int(ad_struct[0])] does not
    raise [ValueError] and [struct.unpack] does not raise [TypeError], so
    neither [except] clause is entered; an [IndexError] or a
    [struct.error] is caught nowhere and leaves the function. *)
Definition decode_eddystone (ad_struct : list byte) : result dict :=
  b0 ← getitem ad_struct 0;
  let length := int_of_byte b0 + 1 in
  let adstruct_bytes := length in
  let ret : dict := <["type" := VNone]> {["adstruct_bytes" := VInt adstruct_bytes]} in
  if (5 <=? adstruct_bytes) && (adstruct_bytes <=? len ad_struct) then
    ec ← struct_unpack LittleEndian EddystoneCommon.fmt (slice ad_struct 0 13)
           ≫= EddystoneCommon._make;
    if (EddystoneCommon.eddystone_uuid ec =? 0xFEAA)
       && (EddystoneCommon.sd_type ec =? 0x16) then
      let ret := <["type" := VStr "eddystone"]> ret in
      select_sub_type ad_struct adstruct_bytes ec ret
    else Ok ret
  else Ok ret.

(** ** Results and inputs named in the statements *)

(** [{'adstruct_bytes': n, 'type': None}]: the structure is not
    recognised. *)
Definition unknown (n : Z) : dict :=
  <["type" := VNone]> {["adstruct_bytes" := VInt n]}.

(** [{'adstruct_bytes': n, 'type': 'eddystone'}]: recognised, no sub
    type decoded. *)
Definition eddystone (n : Z) : dict :=
  <["type" := VStr "eddystone"]> (unknown n).

(** The common header that ['<BBBBBBHBBHB'] reads from 13 bytes. *)
Definition common_header (b0 b1 b2 b3 b4 b5 b6 b7 b8 b9 b10 b11 b12 : byte)
    : EddystoneCommon.t :=
  EddystoneCommon.mk
    (int_of_byte b0) (int_of_byte b1) (int_of_byte b2) (int_of_byte b3)
    (int_of_byte b4) (int_of_byte b5) (uint_of LittleEndian [b6; b7])
    (int_of_byte b8) (int_of_byte b9) (uint_of LittleEndian [b10; b11])
    (int_of_byte b12).

(** The dictionary of the UID frame whose namespace is [01 .. 0A], whose
    instance is [0B .. 10] and whose [rssi_ref] byte is [0xEC]. *)
Definition uid_result (n : Z) : dict :=
  <["rssi_ref" := VInt (-20)]>
    (<["instance" := VStr "0B0C0D0E0F10"]>
       (<["namespace" := VStr "0102030405060708090A"]>
          (<["sub_type" := VStr "uid"]> (eddystone n)))).

(** What one pass of the URL loop body appends for the code [c_code]. *)
Definition url_appended (c_code : Z) : string :=
  if c_code <? 7 then nth (Z.to_nat c_code) url_expansions EmptyString +:+ "/"
  else if c_code <? 14 then nth (Z.to_nat (c_code - 7)) url_expansions EmptyString
  else if is_graphic_ascii c_code then chr c_code
  else EmptyString.

(** A five-byte structure whose length byte announces exactly five
    bytes. *)
Definition five_bytes : list byte := [x04; x00; x00; x00; x00].

(** A 30-byte UID frame: flags, service list, then the Eddystone
    service data with [rssi_ref = 0xEC]. *)
Definition uid_frame (eddy_len : byte) : list byte :=
  [x1d; x01; x06; x03; x03; xaa; xaa; xfe; eddy_len; x16; xaa; xfe; x00;
   xec; x01; x02; x03; x04; x05; x06; x07; x08; x09; x0a;
   x0b; x0c; x0d; x0e; x0f; x10].

(** A 26-byte TLM frame: version, [vbatt = 3300], [temp = 2048],
    [adv_cnt = 10], [sec_cnt = 100]. *)
Definition tlm_frame (tlm_version : byte) : list byte :=
  [x19; x01; x06; x03; x03; xaa; xaa; xfe; x11; x16; xaa; xfe; x20;
   tlm_version; x0c; xe4; x08; x00; x00; x00; x00; x0a; x00; x00; x00; x64].

(** A 15-byte URL frame: header, [rssi_ref], [url_scheme] and nothing
    else, so that the two-byte unpack of line 132 succeeds. *)
Definition url_frame_15 : list byte :=
  [x0e; x01; x06; x03; x03; xaa; xaa; xfe; x06; x16; xaa; xfe; x10;
   xec; x00].

(** A 23-byte URL frame: [url_scheme = 0x00], the ASCII bytes of
    "example", then the expansion code [0x00]. *)
Definition url_frame_example : list byte :=
  [x16; x01; x06; x03; x03; xaa; xaa; xfe; x0e; x16; xaa; xfe; x10;
   xec; x00; x65; x78; x61; x6d; x70; x6c; x65; x00].

(** A 13-byte structure with the Eddystone UUID at bytes 6-7 and [0x16]
    at byte 8, but not at byte 9. *)
Definition byte_8_frame : list byte :=
  [x0c; x01; x06; x03; x03; xaa; xaa; xfe; x16; x00; xaa; xfe; x00].

(** * Properties *)

(** ** The result monad and the built-ins *)

Lemma bind_Ok {A B} (a : A) (k : A -> result B) : (Ok a ≫= k) = k a.
Proof. reflexivity. Qed.

Lemma bind_Ok_r {A} (m : result A) : (m ≫= Ok) = m.
Proof. by destruct m. Qed.

Lemma int_of_byte_range b : 0 <= int_of_byte b < 256.
Proof. unfold int_of_byte. pose proof (Byte.to_N_bounded b). lia. Qed.

Lemma uint_of_1 o b : uint_of o [b] = int_of_byte b.
Proof. destruct o; cbn [uint_of foldl foldr]; lia. Qed.

(** Reading one past the last element always fails. *)
Lemma getitem_len {A} (l : list A) : getitem l (len l) = Raise IndexError.
Proof.
  unfold getitem, len.
  destruct (Z.ltb_spec (Z.of_nat (length l)) 0) as [?|_]; [lia|].
  destruct (Z.ltb_spec (Z.of_nat (length l)) 0) as [?|_]; [lia|].
  rewrite Nat2Z.id, (lookup_ge_None_2 l (length l)); [reflexivity | lia].
Qed.

(** ** The three sub-type decoders *)

(** Line 132 passes unless the slice has two bytes; when it has, line
    135 fails.  The loop below them is never entered. *)
Lemma decode_url_raises ad_struct n ret :
  decode_url ad_struct n ret =
    if (length (slice ad_struct 13 20) =? 2)%nat
    then Raise IndexError else Raise StructError.
Proof.
  unfold decode_url, struct_unpack.
  change (calcsize EddystoneURL.fmt) with 2%nat.
  destruct (length (slice ad_struct 13 20) =? 2)%nat eqn:E; [|reflexivity].
  rewrite bind_Ok.
  destruct (EddystoneURL._make _) as [eu|e] eqn:M.
  - by rewrite bind_Ok, getitem_len.
  - apply Nat.eqb_eq in E.
    by destruct (slice ad_struct 13 20) as [|x [|y [|z l]]].
Qed.

Lemma decode_uid_keeps ad_struct ret ret' k :
  decode_uid ad_struct ret = Ok ret' ->
  k = "type" \/ k = "adstruct_bytes" ->
  ret' !! k = ret !! k.
Proof.
  unfold decode_uid. destruct (_ ≫= EddystoneUID._make) as [ei|e]; [|done].
  rewrite bind_Ok. intros [= <-] [-> | ->]; by simplify_map_eq.
Qed.

Lemma decode_tlm_keeps ad_struct ret ret' k :
  decode_tlm ad_struct ret = Ok ret' ->
  k = "type" \/ k = "adstruct_bytes" ->
  ret' !! k = ret !! k.
Proof.
  unfold decode_tlm. destruct (_ ≫= EddystoneTLM._make) as [et|e]; [|done].
  rewrite bind_Ok. destruct (_ =? _); intros [= <-] [-> | ->]; by simplify_map_eq.
Qed.

Lemma decode_uid_sub_type ad_struct ret ret' :
  decode_uid ad_struct ret = Ok ret' -> ret' !! "sub_type" = Some (VStr "uid").
Proof.
  unfold decode_uid. destruct (_ ≫= EddystoneUID._make) as [ei|e]; [|done].
  rewrite bind_Ok. intros [= <-]. by simplify_map_eq.
Qed.

Lemma decode_tlm_sub_type ad_struct ret ret' :
  decode_tlm ad_struct ret = Ok ret' -> ret' !! "sub_type" = Some (VStr "tlm").
Proof.
  unfold decode_tlm. destruct (_ ≫= EddystoneTLM._make) as [et|e]; [|done].
  rewrite bind_Ok. destruct (_ =? _); intros [= <-]; by simplify_map_eq.
Qed.

(** ** Selecting the sub type *)

Section select.
Variables (ad_struct : list byte) (n : Z) (ec : EddystoneCommon.t) (ret : dict).

Lemma select_url :
  EddystoneCommon.sub_type ec = 0x10 ->
  select_sub_type ad_struct n ec ret =
    if (length (slice ad_struct 13 20) =? 2)%nat
    then Raise IndexError else Raise StructError.
Proof.
  intros H. unfold select_sub_type. rewrite H.
  cbn [Z.eqb Pos.eqb andb]. rewrite bind_Ok, decode_url_raises.
  by destruct (_ =? _)%nat.
Qed.

Lemma select_uid :
  EddystoneCommon.sub_type ec = 0x00 ->
  EddystoneCommon.eddy_len ec = 0x15 \/ EddystoneCommon.eddy_len ec = 0x17 ->
  select_sub_type ad_struct n ec ret = decode_uid ad_struct ret.
Proof.
  intros H He. unfold select_sub_type. rewrite H.
  assert ((EddystoneCommon.eddy_len ec =? 0x15)
          || (EddystoneCommon.eddy_len ec =? 0x17) = true) as ->.
  { destruct He as [-> | ->]; reflexivity. }
  cbn [Z.eqb Pos.eqb andb].
  destruct (decode_uid ad_struct ret) as [r|e]; [|done].
  by rewrite !bind_Ok.
Qed.

Lemma select_tlm :
  EddystoneCommon.sub_type ec = 0x20 ->
  EddystoneCommon.eddy_len ec = 0x11 ->
  select_sub_type ad_struct n ec ret = decode_tlm ad_struct ret.
Proof.
  intros H He. unfold select_sub_type. rewrite H, He.
  cbn [Z.eqb Pos.eqb andb orb]. rewrite !bind_Ok. apply bind_Ok_r.
Qed.

Lemma select_none :
  ~ (EddystoneCommon.sub_type ec = 0x00
     /\ (EddystoneCommon.eddy_len ec = 0x15 \/ EddystoneCommon.eddy_len ec = 0x17)) ->
  EddystoneCommon.sub_type ec <> 0x10 ->
  ~ (EddystoneCommon.sub_type ec = 0x20 /\ EddystoneCommon.eddy_len ec = 0x11) ->
  select_sub_type ad_struct n ec ret = Ok ret.
Proof.
  intros Hu Hl Ht. unfold select_sub_type.
  assert ((EddystoneCommon.sub_type ec =? 0x00)
          && ((EddystoneCommon.eddy_len ec =? 0x15)
              || (EddystoneCommon.eddy_len ec =? 0x17)) = false) as ->.
  { apply not_true_is_false. rewrite andb_true_iff, orb_true_iff, !Z.eqb_eq. exact Hu. }
  assert ((EddystoneCommon.sub_type ec =? 0x10) = false) as -> by by apply Z.eqb_neq.
  assert ((EddystoneCommon.sub_type ec =? 0x20)
          && (EddystoneCommon.eddy_len ec =? 0x11) = false) as ->.
  { apply not_true_is_false. rewrite andb_true_iff, !Z.eqb_eq. exact Ht. }
  reflexivity.
Qed.

(** Whatever is selected, a returned dictionary still has the two
    entries it started with, and its sub type is not ['url']. *)
Lemma select_keeps ret' k :
  select_sub_type ad_struct n ec ret = Ok ret' ->
  k = "type" \/ k = "adstruct_bytes" ->
  ret' !! k = ret !! k.
Proof.
  unfold select_sub_type. intros H Hk.
  destruct (if (_ =? 0x00) && _ then _ else _) as [r1|e] eqn:E1; [|done].
  rewrite bind_Ok in H.
  destruct (EddystoneCommon.sub_type ec =? 0x10).
  { rewrite decode_url_raises in H. by destruct (_ =? _)%nat. }
  rewrite bind_Ok in H.
  destruct (if (_ =? 0x20) && _ then _ else _) as [r2|e] eqn:E2; [|done].
  rewrite bind_Ok in H. injection H as <-.
  transitivity (r1 !! k).
  - destruct (_ && _) in E2; [by eapply decode_tlm_keeps | by injection E2 as <-].
  - destruct (_ && _) in E1; [by eapply decode_uid_keeps | by injection E1 as <-].
Qed.

Lemma select_never_url ret' :
  ret !! "sub_type" = None ->
  select_sub_type ad_struct n ec ret = Ok ret' ->
  ret' !! "sub_type" <> Some (VStr "url").
Proof.
  unfold select_sub_type. intros Hr H.
  destruct (if (_ =? 0x00) && _ then _ else _) as [r1|e] eqn:E1; [|done].
  rewrite bind_Ok in H.
  destruct (EddystoneCommon.sub_type ec =? 0x10).
  { rewrite decode_url_raises in H. by destruct (_ =? _)%nat. }
  rewrite bind_Ok in H.
  destruct (if (_ =? 0x20) && _ then _ else _) as [r2|e] eqn:E2; [|done].
  rewrite bind_Ok in H. injection H as <-.
  destruct (_ && _) in E2.
  { by rewrite (decode_tlm_sub_type _ _ _ E2). }
  injection E2 as <-.
  destruct (_ && _) in E1.
  { by rewrite (decode_uid_sub_type _ _ _ E1). }
  injection E1 as <-. by rewrite Hr.
Qed.

End select.

(** ** The length gate and the common header *)

Lemma decode_cons b0 rest :
  decode_eddystone (b0 :: rest) =
    let ad_struct := b0 :: rest in
    let adstruct_bytes := int_of_byte b0 + 1 in
    if (5 <=? adstruct_bytes) && (adstruct_bytes <=? len ad_struct) then
      ec ← struct_unpack LittleEndian EddystoneCommon.fmt (slice ad_struct 0 13)
             ≫= EddystoneCommon._make;
      if (EddystoneCommon.eddystone_uuid ec =? 0xFEAA)
         && (EddystoneCommon.sd_type ec =? 0x16)
      then select_sub_type ad_struct adstruct_bytes ec (eddystone adstruct_bytes)
      else Ok (unknown adstruct_bytes)
    else Ok (unknown adstruct_bytes).
Proof. reflexivity. Qed.

Lemma gate_true n m : 5 <= n <= m -> (5 <=? n) && (n <=? m) = true.
Proof. intros [? ?]. apply andb_true_intro. split; by apply Z.leb_le. Qed.

Lemma gate_false n m : n < 5 \/ m < n -> (5 <=? n) && (n <=? m) = false.
Proof.
  intros H. apply not_true_is_false. rewrite andb_true_iff, !Z.leb_le. lia.
Qed.

(** A buffer that is not 13 bytes long after slicing cannot be unpacked
    as the common header. *)
Lemma unpack_common_short (ad_struct : list byte) :
  len ad_struct < 13 ->
  struct_unpack LittleEndian EddystoneCommon.fmt (slice ad_struct 0 13)
    ≫= EddystoneCommon._make = Raise StructError.
Proof.
  unfold len, slice, struct_unpack. intros H.
  change (calcsize EddystoneCommon.fmt) with 13%nat.
  rewrite length_take, length_drop.
  destruct (_ =? _)%nat eqn:E; [|done].
  apply Nat.eqb_eq in E. lia.
Qed.

Section header.
Variables b0 b1 b2 b3 b4 b5 b6 b7 b8 b9 b10 b11 b12 : byte.
Variable rest : list byte.

Let ad_struct : list byte :=
  b0 :: b1 :: b2 :: b3 :: b4 :: b5 :: b6 :: b7 :: b8 :: b9 :: b10 :: b11
     :: b12 :: rest.

Let header : EddystoneCommon.t :=
  common_header b0 b1 b2 b3 b4 b5 b6 b7 b8 b9 b10 b11 b12.

Lemma unpack_common :
  struct_unpack LittleEndian EddystoneCommon.fmt (slice ad_struct 0 13)
    ≫= EddystoneCommon._make = Ok header.
Proof.
  unfold header, common_header. rewrite <- !(uint_of_1 LittleEndian). reflexivity.
Qed.

Lemma decode_recognised :
  5 <= int_of_byte b0 + 1 <= len ad_struct ->
  uint_of LittleEndian [b6; b7] = 0xFEAA ->
  int_of_byte b9 = 0x16 ->
  decode_eddystone ad_struct =
    select_sub_type ad_struct (int_of_byte b0 + 1) header
      (eddystone (int_of_byte b0 + 1)).
Proof.
  intros Hg Hu Ht. unfold ad_struct at 1. rewrite decode_cons. cbv zeta.
  fold ad_struct. rewrite gate_true, unpack_common, bind_Ok by done.
  unfold header at 1 2, common_header.
  cbn [EddystoneCommon.eddystone_uuid EddystoneCommon.sd_type].
  by rewrite Hu, Ht.
Qed.

Lemma decode_not_recognised :
  5 <= int_of_byte b0 + 1 <= len ad_struct ->
  ~ (uint_of LittleEndian [b6; b7] = 0xFEAA /\ int_of_byte b9 = 0x16) ->
  decode_eddystone ad_struct = Ok (unknown (int_of_byte b0 + 1)).
Proof.
  intros Hg Hn. unfold ad_struct at 1. rewrite decode_cons. cbv zeta.
  fold ad_struct. rewrite gate_true, unpack_common, bind_Ok by done.
  unfold header, common_header.
  cbn [EddystoneCommon.eddystone_uuid EddystoneCommon.sd_type].
  assert ((uint_of LittleEndian [b6; b7] =? 0xFEAA) && (int_of_byte b9 =? 0x16)
          = false) as ->; [|done].
  apply not_true_is_false. by rewrite andb_true_iff, !Z.eqb_eq.
Qed.

End header.

(** ** The URL loop body *)

Lemma append_assoc (s t u : string) : (s +:+ t) +:+ u = s +:+ t +:+ u.
Proof.
  induction s as [|a s IH]; [reflexivity | exact (f_equal (String a) IH)].
Qed.

Lemma append_empty_r (s : string) : s +:+ EmptyString = s.
Proof.
  induction s as [|a s IH]; [reflexivity | exact (f_equal (String a) IH)].
Qed.

Lemma getitem_nth {A} (l : list A) (i : Z) (d : A) :
  0 <= i < len l -> getitem l i = Ok (nth (Z.to_nat i) l d).
Proof.
  unfold getitem, len. intros [Hi Hl].
  destruct (Z.ltb_spec i 0) as [?|_]; [lia|].
  destruct (Z.ltb_spec i 0) as [?|_]; [lia|].
  destruct (lookup_lt_is_Some_2 l (Z.to_nat i)) as [x Hx]; [lia|].
  by rewrite Hx, (nth_lookup_Some _ _ d x Hx).
Qed.

Lemma iadd_str_url (ret : dict) (u s : string) :
  ret !! "url" = Some (VStr u) ->
  iadd_str ret "url" s = Ok (<["url" := VStr (u +:+ s)]> ret).
Proof. unfold iadd_str. by intros ->. Qed.

Lemma graphic_ascii_above_expansion c_code :
  c_code < 14 -> is_graphic_ascii c_code = false.
Proof.
  intros H. unfold is_graphic_ascii.
  destruct (Z.ltb_spec 0x20 c_code); [lia|done].
Qed.

Lemma url_byte_spec (ret : dict) (u : string) (c_code : Z) :
  ret !! "url" = Some (VStr u) ->
  0 <= c_code ->
  url_byte ret c_code = Ok (<["url" := VStr (u +:+ url_appended c_code)]> ret).
Proof.
  intros Hu H0. unfold url_byte, url_appended, is_expansion_code.
  destruct (Z.ltb_spec c_code 7) as [H7|H7].
  - assert ((c_code <? 14) = true) as -> by (apply Z.ltb_lt; lia).
    rewrite (getitem_nth _ _ EmptyString) by (change (len url_expansions) with 7; lia).
    rewrite bind_Ok, (iadd_str_url _ u) by done.
    rewrite bind_Ok, (iadd_str_url _ (u +:+ nth (Z.to_nat c_code) url_expansions EmptyString))
      by apply lookup_insert_eq.
    rewrite bind_Ok, graphic_ascii_above_expansion by lia.
    by rewrite insert_insert_eq, append_assoc.
  - destruct (Z.ltb_spec c_code 14) as [H14|H14].
    + rewrite (getitem_nth _ _ EmptyString) by (change (len url_expansions) with 7; lia).
      rewrite bind_Ok, (iadd_str_url _ u) by done.
      by rewrite !bind_Ok, graphic_ascii_above_expansion by lia.
    + rewrite bind_Ok. destruct (is_graphic_ascii c_code).
      * by apply iadd_str_url.
      * by rewrite append_empty_r, insert_id.
Qed.

(** * The claims *)

(** A structure that passes the length gate with fewer than 13 bytes
    makes the header unpack fail. *)
Lemma decode_short_header b0 rest :
  5 <= int_of_byte b0 + 1 <= len (b0 :: rest) ->
  len (b0 :: rest) < 13 ->
  decode_eddystone (b0 :: rest) = Raise StructError.
Proof.
  intros Hg Hl. rewrite decode_cons. cbv zeta.
  by rewrite gate_true, unpack_common_short.
Qed.

(** C1: the decoder is claimed never to raise on a non-empty input.  On
    the five-byte input [04 00 00 00 00] the length gate passes
    ([adstruct_bytes = 5 = len]) and the 13-byte header unpack of line 74
    raises [struct.error], which nothing catches. *)
Theorem decode_eddystone_raises_on_five_bytes :
  decode_eddystone five_bytes = Raise StructError.
Proof. apply decode_short_header; vm_compute; by split. Qed.

(** C2: whenever the decoder returns on a non-empty input, the returned
    dictionary carries [adstruct_bytes = ad_struct[0] + 1], whichever
    variant it is. *)
Theorem decode_eddystone_adstruct_bytes b0 rest ret :
  decode_eddystone (b0 :: rest) = Ok ret ->
  ret !! "adstruct_bytes" = Some (VInt (int_of_byte b0 + 1)).
Proof.
  rewrite decode_cons. cbv zeta.
  destruct (_ && _); [|by intros [= <-]].
  destruct (_ ≫= EddystoneCommon._make) as [ec|e]; [|done].
  rewrite bind_Ok. destruct (_ && _); [|by intros [= <-]].
  intros H. by rewrite (select_keeps _ _ _ _ _ "adstruct_bytes" H); [|right].
Qed.

Lemma decode_eddystone_adstruct_bytes_witness :
  decode_eddystone (uid_frame x15) = Ok (uid_result 30)
  /\ uid_result 30 !! "adstruct_bytes" = Some (VInt 30).
Proof.
  assert (decode_eddystone (uid_frame x15) = Ok (uid_result 30)) as H
    by (vm_compute; reflexivity).
  split; [exact H|].
  exact (decode_eddystone_adstruct_bytes x1d _ (uid_result 30) H).
Defined.

(** C3: when [adstruct_bytes = ad_struct[0] + 1] is below 5 or above the
    buffer length, the decoder returns the unknown dictionary
    [{'adstruct_bytes': adstruct_bytes, 'type': None}], whatever the
    other bytes are. *)
Theorem decode_eddystone_length_gate b0 rest :
  int_of_byte b0 + 1 < 5 \/ len (b0 :: rest) < int_of_byte b0 + 1 ->
  decode_eddystone (b0 :: rest) = Ok (unknown (int_of_byte b0 + 1)).
Proof. intros H. rewrite decode_cons. cbv zeta. by rewrite gate_false. Qed.

Lemma decode_eddystone_length_gate_witness :
  decode_eddystone [x03; xaa; xfe; x16] = Ok (unknown 4)
  /\ decode_eddystone [x1d; xaa; xfe; x16; x00; x00] = Ok (unknown 30).
Proof.
  split.
  - apply (decode_eddystone_length_gate x03 [xaa; xfe; x16]).
    left. vm_compute. reflexivity.
  - apply (decode_eddystone_length_gate x1d [xaa; xfe; x16; x00; x00]).
    right. vm_compute. reflexivity.
Defined.

(** C4, as stated, fails twice.  On [byte_8_frame] the length gate
    passes, bytes 6-7 hold [0xFEAA] and byte 8 holds [0x16], yet the
    result is not tagged Eddystone: the format puts [eddy_len] at byte 8
    and [sd_type] at byte 9.  On [five_bytes] the gate passes and the
    decoder returns neither an Eddystone nor an unknown result: it
    raises. *)
Lemma recognition_counterexample :
  (5 <= int_of_byte x0c + 1 <= len byte_8_frame
   /\ uint_of LittleEndian (slice byte_8_frame 6 8) = 0xFEAA
   /\ getitem byte_8_frame 8 = Ok x16
   /\ decode_eddystone byte_8_frame = Ok (unknown 13)
   /\ unknown 13 !! "type" = Some VNone)
  /\ (5 <= int_of_byte x04 + 1 <= len five_bytes
      /\ decode_eddystone five_bytes = Raise StructError).
Proof. vm_compute. repeat split; congruence. Qed.

(** C4, amended: for every input of at least 13 bytes that passes the
    length gate, with [eddystone_uuid] the little-endian 16-bit value at
    bytes 6-7 and [sd_type] the byte at index 9: when
    [eddystone_uuid <> 0xFEAA] or [sd_type <> 0x16] the decoder returns
    the unknown dictionary with its [adstruct_bytes]; whenever the
    decoder returns, the result is tagged ['eddystone'] if and only if
    [eddystone_uuid = 0xFEAA] and [sd_type = 0x16]; and a recognised
    header whose [sub_type] and [eddy_len] select none of the three sub
    types is returned tagged, with nothing else added. *)
Theorem decode_eddystone_recognition
    b0 b1 b2 b3 b4 b5 b6 b7 b8 b9 b10 b11 b12 rest :
  let ad_struct :=
    b0 :: b1 :: b2 :: b3 :: b4 :: b5 :: b6 :: b7 :: b8 :: b9 :: b10 :: b11
       :: b12 :: rest in
  let adstruct_bytes := int_of_byte b0 + 1 in
  let recognised :=
    uint_of LittleEndian [b6; b7] = 0xFEAA /\ int_of_byte b9 = 0x16 in
  5 <= adstruct_bytes <= len ad_struct ->
  (~ recognised -> decode_eddystone ad_struct = Ok (unknown adstruct_bytes))
  /\ (forall ret, decode_eddystone ad_struct = Ok ret ->
        (ret !! "type" = Some (VStr "eddystone") <-> recognised))
  /\ (recognised ->
      ~ (int_of_byte b12 = 0x00 /\ (int_of_byte b8 = 0x15 \/ int_of_byte b8 = 0x17)) ->
      int_of_byte b12 <> 0x10 ->
      ~ (int_of_byte b12 = 0x20 /\ int_of_byte b8 = 0x11) ->
      decode_eddystone ad_struct = Ok (eddystone adstruct_bytes)).
Proof.
  intros ad_struct n recognised Hg. split; [|split].
  - intros Hn. by apply decode_not_recognised.
  - intros ret H. destruct (decide recognised) as [[Hu Ht]|Hn].
    + split; [done|intros _].
      unfold ad_struct in H. rewrite decode_recognised in H by done.
      by rewrite (select_keeps _ _ _ _ _ "type" H); [|left].
    + unfold ad_struct in H. rewrite decode_not_recognised in H by done.
      injection H as <-. split; [done|by intros ?].
  - intros [Hu Ht] H1 H2 H3. unfold ad_struct.
    rewrite decode_recognised by done. by apply select_none.
Qed.

Lemma decode_eddystone_recognition_witness :
  decode_eddystone byte_8_frame = Ok (unknown 13)
  /\ decode_eddystone
       [x0c; x01; x06; x03; x03; xaa; xaa; xfe; x03; x16; xaa; xfe; x30]
     = Ok (eddystone 13).
Proof.
  split.
  - apply (decode_eddystone_recognition
             x0c x01 x06 x03 x03 xaa xaa xfe x16 x00 xaa xfe x00 []).
    + vm_compute. by split.
    + vm_compute. by intros [_ ?].
  - apply (decode_eddystone_recognition
             x0c x01 x06 x03 x03 xaa xaa xfe x03 x16 xaa xfe x30 []).
    + vm_compute. by split.
    + vm_compute. by split.
    + vm_compute. by intros [? _].
    + vm_compute. done.
    + vm_compute. by intros [? _].
Defined.

(** The UID payload [EC 01 .. 0A 0B .. 10] at bytes 13..29, under any
    header bytes and before any trailing bytes. *)
Lemma decode_uid_payload b0 b1 b2 b3 b4 b5 b6 b7 b8 b9 b10 b11 b12 tail n :
  decode_uid
    (b0 :: b1 :: b2 :: b3 :: b4 :: b5 :: b6 :: b7 :: b8 :: b9 :: b10 :: b11
        :: b12
        :: [xec; x01; x02; x03; x04; x05; x06; x07; x08; x09; x0a;
            x0b; x0c; x0d; x0e; x0f; x10] ++ tail)
    (eddystone n)
  = Ok (uid_result n).
Proof. reflexivity. Qed.

(** C5: a recognised UID frame ([sub_type = 0x00], [eddy_len = 0x15])
    whose bytes 13..29 are [EC], [01 .. 0A], [0B .. 10] decodes to
    namespace "0102030405060708090A", instance "0B0C0D0E0F10" and
    [rssi_ref = -20]; with [eddy_len = 0x17] the result is the same. *)
Theorem decode_eddystone_uid b0 b1 b2 b3 b4 b5 b6 b7 b8 b9 b10 b11 b12 tail :
  let ad_struct :=
    b0 :: b1 :: b2 :: b3 :: b4 :: b5 :: b6 :: b7 :: b8 :: b9 :: b10 :: b11
       :: b12
       :: [xec; x01; x02; x03; x04; x05; x06; x07; x08; x09; x0a;
           x0b; x0c; x0d; x0e; x0f; x10] ++ tail in
  5 <= int_of_byte b0 + 1 <= len ad_struct ->
  uint_of LittleEndian [b6; b7] = 0xFEAA ->
  int_of_byte b9 = 0x16 ->
  int_of_byte b12 = 0x00 ->
  int_of_byte b8 = 0x15 \/ int_of_byte b8 = 0x17 ->
  decode_eddystone ad_struct = Ok (uid_result (int_of_byte b0 + 1))
  /\ uid_result (int_of_byte b0 + 1) !! "type" = Some (VStr "eddystone")
  /\ uid_result (int_of_byte b0 + 1) !! "sub_type" = Some (VStr "uid")
  /\ uid_result (int_of_byte b0 + 1) !! "namespace"
       = Some (VStr "0102030405060708090A")
  /\ uid_result (int_of_byte b0 + 1) !! "instance" = Some (VStr "0B0C0D0E0F10")
  /\ uid_result (int_of_byte b0 + 1) !! "rssi_ref" = Some (VInt (-20)).
Proof.
  intros ad_struct Hg Hu Ht Hs He. split; [|by repeat split].
  unfold ad_struct. rewrite decode_recognised by done.
  rewrite select_uid by done. apply decode_uid_payload.
Qed.

Lemma decode_eddystone_uid_witness :
  decode_eddystone (uid_frame x15) = Ok (uid_result 30)
  /\ decode_eddystone (uid_frame x17) = Ok (uid_result 30).
Proof.
  split.
  - apply (decode_eddystone_uid
             x1d x01 x06 x03 x03 xaa xaa xfe x15 x16 xaa xfe x00 []).
    + vm_compute. by split.
    + vm_compute. reflexivity.
    + vm_compute. reflexivity.
    + vm_compute. reflexivity.
    + left. vm_compute. reflexivity.
  - apply (decode_eddystone_uid
             x1d x01 x06 x03 x03 xaa xaa xfe x17 x16 xaa xfe x00 []).
    + vm_compute. by split.
    + vm_compute. reflexivity.
    + vm_compute. reflexivity.
    + vm_compute. reflexivity.
    + right. vm_compute. reflexivity.
Defined.

(** The TLM payload at bytes 13..25, under any header bytes and before
    any trailing bytes: ['>BHhLL']. *)
Lemma decode_tlm_payload b0 b1 b2 b3 b4 b5 b6 b7 b8 b9 b10 b11 b12
    v vb1 vb0 t1 t0 a3 a2 a1 a0 s3 s2 s1 s0 tail ret :
  decode_tlm
    (b0 :: b1 :: b2 :: b3 :: b4 :: b5 :: b6 :: b7 :: b8 :: b9 :: b10 :: b11
        :: b12
        :: v :: vb1 :: vb0 :: t1 :: t0 :: a3 :: a2 :: a1 :: a0
        :: s3 :: s2 :: s1 :: s0 :: tail)
    ret
  = let ret :=
      <["tlm_version" := VInt (int_of_byte v)]> (<["sub_type" := VStr "tlm"]> ret) in
    if int_of_byte v =? 0 then
      Ok (<["sec_cnt" := VFloat (truediv (uint_of BigEndian [s3; s2; s1; s0]) 10)]>
            (<["adv_cnt" := VInt (uint_of BigEndian [a3; a2; a1; a0])]>
               (<["temp" := VFloat (truediv (signed 16 (uint_of BigEndian [t1; t0])) 256)]>
                  (<["vbatt" := VFloat (truediv (uint_of BigEndian [vb1; vb0]) 1000)]>
                     ret))))
    else Ok ret.
Proof.
  unfold decode_tlm.
  match goal with |- context [?m ≫= EddystoneTLM._make] =>
    change (m ≫= EddystoneTLM._make)
      with (Ok (EddystoneTLM.mk (uint_of BigEndian [v])
                  (uint_of BigEndian [vb1; vb0])
                  (signed 16 (uint_of BigEndian [t1; t0]))
                  (uint_of BigEndian [a3; a2; a1; a0])
                  (uint_of BigEndian [s3; s2; s1; s0])))
  end.
  rewrite bind_Ok.
  cbn [EddystoneTLM.tlm_version EddystoneTLM.vbatt EddystoneTLM.temp
       EddystoneTLM.adv_cnt EddystoneTLM.sec_cnt].
  by rewrite uint_of_1.
Qed.

(** C6: for a recognised header with [sub_type = 0x20], the TLM
    dictionary is produced only when [eddy_len = 0x11] (otherwise the
    bare Eddystone dictionary is returned); when it is produced from the
    13 payload bytes, [tlm_version] is byte 13, and [vbatt], [temp],
    [adv_cnt], [sec_cnt] are [vbatt_raw / 1000], [temp_raw / 256]
    ([temp_raw] big-endian signed 16-bit), [adv_cnt_raw] and
    [sec_cnt_raw / 10] when [tlm_version = 0], and absent otherwise. *)
Theorem decode_eddystone_tlm b0 b1 b2 b3 b4 b5 b6 b7 b8 b9 b10 b11 b12 rest :
  let ad_struct :=
    b0 :: b1 :: b2 :: b3 :: b4 :: b5 :: b6 :: b7 :: b8 :: b9 :: b10 :: b11
       :: b12 :: rest in
  let adstruct_bytes := int_of_byte b0 + 1 in
  5 <= adstruct_bytes <= len ad_struct ->
  uint_of LittleEndian [b6; b7] = 0xFEAA ->
  int_of_byte b9 = 0x16 ->
  int_of_byte b12 = 0x20 ->
  (int_of_byte b8 <> 0x11 ->
   decode_eddystone ad_struct = Ok (eddystone adstruct_bytes))
  /\ (forall ret, decode_eddystone ad_struct = Ok ret ->
        ret !! "sub_type" = Some (VStr "tlm") -> int_of_byte b8 = 0x11)
  /\ (int_of_byte b8 = 0x11 ->
      forall v vb1 vb0 t1 t0 a3 a2 a1 a0 s3 s2 s1 s0 tail,
        rest = v :: vb1 :: vb0 :: t1 :: t0 :: a3 :: a2 :: a1 :: a0
                 :: s3 :: s2 :: s1 :: s0 :: tail ->
        exists ret,
          decode_eddystone ad_struct = Ok ret
          /\ ret !! "adstruct_bytes" = Some (VInt adstruct_bytes)
          /\ ret !! "type" = Some (VStr "eddystone")
          /\ ret !! "sub_type" = Some (VStr "tlm")
          /\ ret !! "tlm_version" = Some (VInt (int_of_byte v))
          /\ ret !! "vbatt" =
               (if int_of_byte v =? 0
                then Some (VFloat (truediv (uint_of BigEndian [vb1; vb0]) 1000))
                else None)
          /\ ret !! "temp" =
               (if int_of_byte v =? 0
                then Some (VFloat (truediv (signed 16 (uint_of BigEndian [t1; t0])) 256))
                else None)
          /\ ret !! "adv_cnt" =
               (if int_of_byte v =? 0
                then Some (VInt (uint_of BigEndian [a3; a2; a1; a0]))
                else None)
          /\ ret !! "sec_cnt" =
               (if int_of_byte v =? 0
                then Some (VFloat (truediv (uint_of BigEndian [s3; s2; s1; s0]) 10))
                else None)).
Proof.
  intros ad_struct n Hg Hu Ht Hs.
  assert (int_of_byte b8 <> 0x11 -> decode_eddystone ad_struct = Ok (eddystone n))
    as Hno.
  { intros He. unfold ad_struct. rewrite decode_recognised by done.
    apply select_none; cbn [common_header EddystoneCommon.sub_type
                            EddystoneCommon.eddy_len]; lia. }
  split; [exact Hno|split].
  - intros ret H Hsub. destruct (decide (int_of_byte b8 = 0x11)) as [|He]; [done|].
    rewrite (Hno He) in H. injection H as <-. done.
  - intros He v vb1 vb0 t1 t0 a3 a2 a1 a0 s3 s2 s1 s0 tail ->.
    unfold ad_struct. rewrite decode_recognised by done.
    rewrite select_tlm by done. rewrite decode_tlm_payload. cbv zeta.
    destruct (int_of_byte v =? 0); eexists; (split; [reflexivity|]);
      repeat split; by simplify_map_eq.
Qed.

#[warnings="-inexact-float"]
Lemma decode_eddystone_tlm_witness :
  (exists ret,
     decode_eddystone (tlm_frame x00) = Ok ret
     /\ ret !! "sub_type" = Some (VStr "tlm")
     /\ ret !! "tlm_version" = Some (VInt 0)
     /\ ret !! "vbatt" = Some (VFloat 3.3)
     /\ ret !! "temp" = Some (VFloat 8)
     /\ ret !! "adv_cnt" = Some (VInt 10)
     /\ ret !! "sec_cnt" = Some (VFloat 10))
  /\ (exists ret,
        decode_eddystone (tlm_frame x01) = Ok ret
        /\ ret !! "sub_type" = Some (VStr "tlm")
        /\ ret !! "tlm_version" = Some (VInt 1)
        /\ ret !! "vbatt" = None
        /\ ret !! "temp" = None
        /\ ret !! "adv_cnt" = None
        /\ ret !! "sec_cnt" = None).
Proof.
  assert (5 <= int_of_byte x19 + 1
          <= len (x19 :: x01 :: x06 :: x03 :: x03 :: xaa :: xaa :: xfe
                      :: x11 :: x16 :: xaa :: xfe :: x20
                      :: [x00; x0c; xe4; x08; x00; x00; x00; x00; x0a;
                          x00; x00; x00; x64])) as Hg0
    by (vm_compute; split; discriminate).
  assert (5 <= int_of_byte x19 + 1
          <= len (x19 :: x01 :: x06 :: x03 :: x03 :: xaa :: xaa :: xfe
                      :: x11 :: x16 :: xaa :: xfe :: x20
                      :: [x01; x0c; xe4; x08; x00; x00; x00; x00; x0a;
                          x00; x00; x00; x64])) as Hg1
    by (vm_compute; split; discriminate).
  split.
  - destruct (proj2 (proj2 (decode_eddystone_tlm
                x19 x01 x06 x03 x03 xaa xaa xfe x11 x16 xaa xfe x20 _
                Hg0 eq_refl eq_refl eq_refl))
              eq_refl x00 x0c xe4 x08 x00 x00 x00 x00 x0a x00 x00 x00 x64 []
              eq_refl)
      as (ret & H & _ & _ & Hsub & Hv & Hb & Ht & Ha & Hs).
    exists ret. repeat split; assumption.
  - destruct (proj2 (proj2 (decode_eddystone_tlm
                x19 x01 x06 x03 x03 xaa xaa xfe x11 x16 xaa xfe x20 _
                Hg1 eq_refl eq_refl eq_refl))
              eq_refl x01 x0c xe4 x08 x00 x00 x00 x00 x0a x00 x00 x00 x64 []
              eq_refl)
      as (ret & H & _ & _ & Hsub & Hv & Hb & Ht & Ha & Hs).
    exists ret. repeat split; assumption.
Defined.

(** C7: the URL branch is claimed to return [rssi_fudge] read at index
    [len(ad_struct) - 1].  Line 135 reads index [len(ad_struct)]: on the
    15-byte URL frame, where line 132 succeeds, that read raises
    [IndexError] and nothing is returned. *)
Theorem decode_eddystone_rssi_fudge_raises :
  decode_eddystone url_frame_15 = Raise IndexError
  /\ getitem url_frame_15 (len url_frame_15) = Raise IndexError
  /\ getitem url_frame_15 (len url_frame_15 - 1) = Ok x00.
Proof. vm_compute. done. Qed.

(** C8: the URL frame with [url_scheme = 0x00], the bytes of "example"
    and the expansion code [0x00] is claimed to decode to
    "http://www.example.com/".  Line 132 unpacks the seven bytes
    [ad_struct[13:20]] with a two-byte format and raises
    [struct.error]. *)
Theorem decode_eddystone_url_example_raises :
  decode_eddystone url_frame_example = Raise StructError.
Proof. vm_compute. done. Qed.

(** C9, as stated, fails: no code satisfies both tests of the URL loop,
    so no byte has both an expansion and a literal appended. *)
Lemma url_tests_never_both_fire :
  ~ exists c_code,
      is_expansion_code c_code = true /\ is_graphic_ascii c_code = true.
Proof.
  intros (c & He & Hg). apply Z.ltb_lt in He.
  by rewrite graphic_ascii_above_expansion in Hg.
Qed.

(** C9, amended: the body of the URL loop runs the expansion test
    ([c_code < 14]) and then the printable test ([0x20 < c_code < 0x7F])
    as two consecutive conditionals, but the two ranges are disjoint: for
    every code at most one of them holds, and one pass appends to
    [ret['url']] either the expansion (with "/" when [c_code < 7]), or
    the literal character, or nothing. *)
Theorem url_byte_appends_once (ret : dict) (u : string) (c_code : Z) :
  ret !! "url" = Some (VStr u) ->
  0 <= c_code ->
  url_byte ret c_code = Ok (<["url" := VStr (u +:+ url_appended c_code)]> ret)
  /\ is_expansion_code c_code && is_graphic_ascii c_code = false.
Proof.
  intros Hu H0. split; [by apply url_byte_spec|].
  unfold is_expansion_code. destruct (Z.ltb_spec c_code 14); [|done].
  by rewrite graphic_ascii_above_expansion.
Qed.

Lemma url_byte_appends_once_witness :
  url_byte {["url" := VStr "http://www."]} 0x65
    = Ok {["url" := VStr "http://www.e"]}
  /\ url_byte {["url" := VStr "http://www.example"]} 0x00
       = Ok {["url" := VStr "http://www.example.com/"]}
  /\ url_byte {["url" := VStr "http://www.example"]} 0x08
       = Ok {["url" := VStr "http://www.example.org"]}
  /\ url_byte {["url" := VStr "http://www."]} 0xFE
       = Ok {["url" := VStr "http://www."]}.
Proof.
  assert (forall u c v, 0 <= c -> u +:+ url_appended c = v ->
            url_byte {["url" := VStr u]} c = Ok {["url" := VStr v]}) as H.
  { intros u c v H0 <-.
    rewrite (proj1 (url_byte_appends_once {["url" := VStr u]} u c
                      (lookup_singleton_eq _ _) H0)).
    by rewrite insert_singleton_eq. }
  repeat split; apply H; vm_compute; congruence.
Defined.

(** C10: every input that reaches the URL branch (length gate passed,
    [eddystone_uuid = 0xFEAA], [sd_type = 0x16], [sub_type = 0x10])
    makes the decoder raise: [struct.error] at line 132 unless the
    buffer has exactly 15 bytes, [IndexError] at line 135 when it has;
    so no returned dictionary has the sub type ['url']. *)
Theorem decode_eddystone_url_raises :
  (forall b0 b1 b2 b3 b4 b5 b6 b7 b8 b9 b10 b11 b12 rest,
     let ad_struct :=
       b0 :: b1 :: b2 :: b3 :: b4 :: b5 :: b6 :: b7 :: b8 :: b9 :: b10 :: b11
          :: b12 :: rest in
     5 <= int_of_byte b0 + 1 <= len ad_struct ->
     uint_of LittleEndian [b6; b7] = 0xFEAA ->
     int_of_byte b9 = 0x16 ->
     int_of_byte b12 = 0x10 ->
     decode_eddystone ad_struct =
       if len ad_struct =? 15 then Raise IndexError else Raise StructError)
  /\ (forall ad_struct ret,
        decode_eddystone ad_struct = Ok ret ->
        ret !! "sub_type" <> Some (VStr "url")).
Proof.
  split.
  - intros b0 b1 b2 b3 b4 b5 b6 b7 b8 b9 b10 b11 b12 rest ad_struct Hg Hu Ht Hs.
    unfold ad_struct at 1. rewrite decode_recognised by done.
    rewrite select_url by done.
    change (slice _ 13 20) with (take 7 rest). rewrite length_take.
    assert (len ad_struct = 13 + Z.of_nat (length rest)) as ->.
    { unfold len, ad_struct. cbn [length]. lia. }
    destruct (Nat.eqb_spec (7 `min` length rest) 2),
             (Z.eqb_spec (13 + Z.of_nat (length rest)) 15); (done || lia).
  - intros [|b0 rest] ret; [done|]. rewrite decode_cons. cbv zeta.
    destruct (_ && _); [|by intros [= <-]].
    destruct (_ ≫= EddystoneCommon._make) as [ec|e]; [|done].
    rewrite bind_Ok. destruct (_ && _); [|by intros [= <-]].
    by apply select_never_url.
Qed.

Lemma decode_eddystone_url_raises_witness :
  decode_eddystone url_frame_15 = Raise IndexError
  /\ decode_eddystone url_frame_example = Raise StructError.
Proof.
  split.
  - apply (proj1 decode_eddystone_url_raises
             x0e x01 x06 x03 x03 xaa xaa xfe x06 x16 xaa xfe x10 [xec; x00]).
    + vm_compute. by split.
    + vm_compute. reflexivity.
    + vm_compute. reflexivity.
    + vm_compute. reflexivity.
  - apply (proj1 decode_eddystone_url_raises
             x16 x01 x06 x03 x03 xaa xaa xfe x0e x16 xaa xfe x10
             [xec; x00; x65; x78; x61; x6d; x70; x6c; x65; x00]).
    + vm_compute. by split.
    + vm_compute. reflexivity.
    + vm_compute. reflexivity.
    + vm_compute. reflexivity.
Defined.

(** * Further properties of the decoder *)

(** ** Slices, unsigned and signed readings *)

Lemma slice_length {A} (l : list A) (lo hi : nat) :
  length (slice l lo hi) = ((hi - lo) `min` (length l - lo))%nat.
Proof. unfold slice. by rewrite length_take, length_drop. Qed.

Lemma uint_of_be_snoc (bs : list byte) (b : byte) :
  uint_of BigEndian (bs ++ [b]) = 256 * uint_of BigEndian bs + int_of_byte b.
Proof. unfold uint_of. by rewrite foldl_app. Qed.

Lemma uint_of_bound (o : byte_order) (bs : list byte) :
  0 <= uint_of o bs < 256 ^ len bs.
Proof.
  unfold len. destruct o.
  - induction bs as [|b bs IH]; [done|].
    cbn [uint_of foldr length] in *. rewrite Nat2Z.inj_succ, Z.pow_succ_r by lia.
    pose proof (int_of_byte_range b). lia.
  - induction bs as [|b bs IH] using rev_ind; [done|].
    rewrite uint_of_be_snoc, length_app, Nat2Z.inj_add. cbn [length].
    change (Z.of_nat 1) with 1. rewrite Z.pow_add_r, Z.pow_1_r by lia.
    pose proof (int_of_byte_range b). lia.
Qed.

Lemma signed_8_range (u : Z) : 0 <= u < 256 -> -128 <= signed 8 u <= 127.
Proof.
  intros H. unfold signed. change (2 ^ (8 - 1)) with 128. change (2 ^ 8) with 256.
  destruct (Z.ltb_spec u 128); lia.
Qed.

(** ** What the UID and TLM decoders compute on any buffer *)

Lemma decode_uid_eq (ad_struct : list byte) (ret : dict) :
  decode_uid ad_struct ret =
    let buf := slice ad_struct 13 30 in
    if (length buf =? 17)%nat then
      Ok (<["rssi_ref" := VInt (signed 8 (uint_of BigEndian (take 1 buf)))]>
            (<["instance" := VStr (hex_join (take 6 (drop 11 buf)))]>
               (<["namespace" := VStr (hex_join (take 10 (drop 1 buf)))]>
                  (<["sub_type" := VStr "uid"]> ret))))
    else Raise StructError.
Proof.
  unfold decode_uid, struct_unpack. cbv zeta.
  change (calcsize EddystoneUID.fmt) with 17%nat.
  destruct (_ =? _)%nat; [|done].
  rewrite bind_Ok. cbn [EddystoneUID.fmt unpack_fields unpack_code code_size
                        EddystoneUID._make].
  rewrite bind_Ok. cbn [EddystoneUID.namespace EddystoneUID.instance
                        EddystoneUID.rssi_ref].
  by rewrite drop_drop.
Qed.

Lemma decode_tlm_raises_short (ad_struct : list byte) (ret : dict) :
  len ad_struct < 26 -> decode_tlm ad_struct ret = Raise StructError.
Proof.
  unfold len. intros H. unfold decode_tlm, struct_unpack.
  change (calcsize EddystoneTLM.fmt) with 13%nat. rewrite slice_length.
  destruct (Nat.eqb_spec ((26 - 13) `min` (length ad_struct - 13)) 13); [lia|done].
Qed.

Lemma decode_tlm_returns_long (ad_struct : list byte) (ret ret' : dict) :
  decode_tlm ad_struct ret = Ok ret' -> 26 <= len ad_struct.
Proof.
  intros H. destruct (Z.lt_ge_cases (len ad_struct) 26) as [Hl|Hl]; [|done].
  by rewrite decode_tlm_raises_short in H.
Qed.

(** ** What a returned selection went through *)

Lemma select_inv ad_struct n ec ret ret' :
  select_sub_type ad_struct n ec ret = Ok ret' ->
  (EddystoneCommon.sub_type ec = 0x00
   /\ (EddystoneCommon.eddy_len ec = 0x15 \/ EddystoneCommon.eddy_len ec = 0x17)
   /\ decode_uid ad_struct ret = Ok ret')
  \/ (EddystoneCommon.sub_type ec = 0x20 /\ EddystoneCommon.eddy_len ec = 0x11
      /\ decode_tlm ad_struct ret = Ok ret')
  \/ ret' = ret.
Proof.
  intros H.
  destruct (decide (EddystoneCommon.sub_type ec = 0x10)) as [Hl|Hl].
  { rewrite select_url in H by done. by destruct (_ =? _)%nat. }
  destruct (decide (EddystoneCommon.sub_type ec = 0x00
                    /\ (EddystoneCommon.eddy_len ec = 0x15
                        \/ EddystoneCommon.eddy_len ec = 0x17))) as [[Hs He]|Hu].
  { left. by rewrite select_uid in H. }
  destruct (decide (EddystoneCommon.sub_type ec = 0x20
                    /\ EddystoneCommon.eddy_len ec = 0x11)) as [[Hs He]|Ht].
  { right; left. by rewrite select_tlm in H. }
  right; right. rewrite select_none in H by done. by injection H.
Qed.

(** ** The hexadecimal rendering *)

Lemma int_of_byte_inj (b b' : byte) : int_of_byte b = int_of_byte b' -> b = b'.
Proof.
  unfold int_of_byte. intros H. apply N2Z.inj in H.
  pose proof (Byte.of_to_N b) as Hb. rewrite H, Byte.of_to_N in Hb.
  by injection Hb.
Qed.

Lemma hex_digit_inj (d d' : Z) :
  0 <= d < 16 -> 0 <= d' < 16 -> hex_digit d = hex_digit d' -> d = d'.
Proof.
  intros Hd Hd'.
  assert (d = 0 \/ d = 1 \/ d = 2 \/ d = 3 \/ d = 4 \/ d = 5 \/ d = 6 \/ d = 7
          \/ d = 8 \/ d = 9 \/ d = 10 \/ d = 11 \/ d = 12 \/ d = 13 \/ d = 14
          \/ d = 15) as H by lia.
  assert (d' = 0 \/ d' = 1 \/ d' = 2 \/ d' = 3 \/ d' = 4 \/ d' = 5 \/ d' = 6
          \/ d' = 7 \/ d' = 8 \/ d' = 9 \/ d' = 10 \/ d' = 11 \/ d' = 12
          \/ d' = 13 \/ d' = 14 \/ d' = 15) as H' by lia.
  repeat (destruct H as [-> | H]); try subst d;
    repeat (destruct H' as [-> | H']); try subst d';
    vm_compute; congruence.
Qed.

Lemma format_02X_inj (b b' : byte) :
  format_02X (int_of_byte b) = format_02X (int_of_byte b') -> b = b'.
Proof.
  pose proof (int_of_byte_range b) as Hb.
  pose proof (int_of_byte_range b') as Hb'.
  unfold format_02X. intros [= Hh Hl].
  apply hex_digit_inj in Hh; [|Z.div_mod_to_equations; lia..].
  apply hex_digit_inj in Hl; [|Z.div_mod_to_equations; lia..].
  apply int_of_byte_inj. Z.div_mod_to_equations. lia.
Qed.

Lemma hex_join_cons (b : byte) (bs : list byte) :
  hex_join (b :: bs) = format_02X (int_of_byte b) +:+ hex_join bs.
Proof. destruct bs; [|done]. unfold hex_join. simpl. by rewrite append_empty_r. Qed.

Lemma hex_join_length (bs : list byte) :
  String.length (hex_join bs) = (2 * length bs)%nat.
Proof.
  induction bs as [|b bs IH]; [done|].
  rewrite hex_join_cons. unfold format_02X.
  change (String.length (String ?a (String ?c EmptyString) +:+ ?s))
    with (S (S (String.length s))).
  rewrite IH. cbn [length]. lia.
Qed.

Lemma uint_of_take_bound (o : byte_order) (k : nat) (bs : list byte) :
  0 <= uint_of o (take k bs) < 256 ^ Z.of_nat k.
Proof.
  pose proof (uint_of_bound o (take k bs)) as H. unfold len in H.
  assert (256 ^ Z.of_nat (length (take k bs)) <= 256 ^ Z.of_nat k).
  { apply Z.pow_le_mono_r; [lia|]. rewrite length_take. lia. }
  lia.
Qed.

Lemma decode_tlm_eq (ad_struct : list byte) (ret : dict) :
  decode_tlm ad_struct ret =
    let buf := slice ad_struct 13 26 in
    if (length buf =? 13)%nat then
      let v := uint_of BigEndian (take 1 buf) in
      let r := <["tlm_version" := VInt v]> (<["sub_type" := VStr "tlm"]> ret) in
      if v =? 0 then
        Ok (<["sec_cnt" :=
                VFloat (truediv (uint_of BigEndian (take 4 (drop 9 buf))) 10)]>
              (<["adv_cnt" := VInt (uint_of BigEndian (take 4 (drop 5 buf)))]>
                 (<["temp" :=
                      VFloat (truediv (signed 16 (uint_of BigEndian (take 2 (drop 3 buf))))
                                256)]>
                    (<["vbatt" :=
                         VFloat (truediv (uint_of BigEndian (take 2 (drop 1 buf))) 1000)]>
                       r))))
      else Ok r
    else Raise StructError.
Proof.
  unfold decode_tlm, struct_unpack. cbv zeta.
  change (calcsize EddystoneTLM.fmt) with 13%nat.
  destruct (_ =? _)%nat; [|done].
  rewrite <- (drop_drop _ 4 5), <- (drop_drop _ 2 3), <- (drop_drop _ 2 1).
  reflexivity.
Qed.

(** A returned TLM dictionary, on any buffer. *)
Lemma decode_tlm_inv (ad_struct : list byte) (ret ret' : dict) :
  decode_tlm ad_struct ret = Ok ret' ->
  exists v b t a s,
    0 <= v < 256 /\ 0 <= a < 2 ^ 32
    /\ ret' =
       let r := <["tlm_version" := VInt v]> (<["sub_type" := VStr "tlm"]> ret) in
       if v =? 0 then
         <["sec_cnt" := VFloat (truediv s 10)]>
           (<["adv_cnt" := VInt a]>
              (<["temp" := VFloat (truediv t 256)]>
                 (<["vbatt" := VFloat (truediv b 1000)]> r)))
       else r.
Proof.
  rewrite decode_tlm_eq. cbv zeta.
  destruct (_ =? _)%nat; [|done]. intros H.
  exists (uint_of BigEndian (take 1 (slice ad_struct 13 26))),
    (uint_of BigEndian (take 2 (drop 1 (slice ad_struct 13 26)))),
    (signed 16 (uint_of BigEndian (take 2 (drop 3 (slice ad_struct 13 26))))),
    (uint_of BigEndian (take 4 (drop 5 (slice ad_struct 13 26)))),
    (uint_of BigEndian (take 4 (drop 9 (slice ad_struct 13 26)))).
  split; [apply (uint_of_take_bound BigEndian 1)|].
  split; [apply (uint_of_take_bound BigEndian 4)|].
  destruct (_ =? 0); by injection H.
Qed.

(** ** Inputs the decoder rejects *)

(** X1: an empty buffer has no length byte: line 53 raises
    [IndexError]. *)
Theorem decode_eddystone_empty : decode_eddystone [] = Raise IndexError.
Proof. reflexivity. Qed.

(** X2: a buffer that passes the length gate of line 70 but has fewer
    than 13 bytes makes the header unpack of line 74 raise
    [struct.error], whatever its bytes are. *)
Theorem decode_eddystone_header_needs_13 (b0 : byte) (rest : list byte) :
  5 <= int_of_byte b0 + 1 <= len (b0 :: rest) ->
  len (b0 :: rest) < 13 ->
  decode_eddystone (b0 :: rest) = Raise StructError.
Proof. apply decode_short_header. Qed.

Lemma decode_eddystone_header_needs_13_witness :
  decode_eddystone
    [x0b; x01; x06; x03; x03; xaa; xaa; xfe; x15; x16; xaa; xfe]
  = Raise StructError.
Proof.
  apply (decode_eddystone_header_needs_13 x0b
           [x01; x06; x03; x03; xaa; xaa; xfe; x15; x16; xaa; xfe]).
  - vm_compute. by split.
  - vm_compute. reflexivity.
Defined.

(** X3: a recognised UID header ([sub_type = 0x00], [eddy_len] 0x15 or
    0x17) on a buffer of fewer than 30 bytes makes the unpack of line
    109 raise [struct.error]. *)
Theorem decode_eddystone_uid_needs_30
    b0 b1 b2 b3 b4 b5 b6 b7 b8 b9 b10 b11 b12 rest :
  let ad_struct :=
    b0 :: b1 :: b2 :: b3 :: b4 :: b5 :: b6 :: b7 :: b8 :: b9 :: b10 :: b11
       :: b12 :: rest in
  5 <= int_of_byte b0 + 1 <= len ad_struct ->
  uint_of LittleEndian [b6; b7] = 0xFEAA ->
  int_of_byte b9 = 0x16 ->
  int_of_byte b12 = 0x00 ->
  int_of_byte b8 = 0x15 \/ int_of_byte b8 = 0x17 ->
  len ad_struct < 30 ->
  decode_eddystone ad_struct = Raise StructError.
Proof.
  intros ad_struct Hg Hu Ht Hs He Hl. subst ad_struct.
  rewrite decode_recognised, select_uid, decode_uid_eq by done. cbv zeta.
  rewrite slice_length. unfold len in Hl.
  destruct (_ =? _)%nat eqn:E; [|done]. apply Nat.eqb_eq in E. lia.
Qed.

Lemma decode_eddystone_uid_needs_30_witness :
  decode_eddystone
    [x0c; x01; x06; x03; x03; xaa; xaa; xfe; x15; x16; xaa; xfe; x00]
  = Raise StructError.
Proof.
  apply (decode_eddystone_uid_needs_30
           x0c x01 x06 x03 x03 xaa xaa xfe x15 x16 xaa xfe x00 []).
  - vm_compute. by split.
  - vm_compute. reflexivity.
  - vm_compute. reflexivity.
  - vm_compute. reflexivity.
  - left. vm_compute. reflexivity.
  - vm_compute. reflexivity.
Defined.

(** X4: a recognised TLM header ([sub_type = 0x20], [eddy_len = 0x11])
    on a buffer of fewer than 26 bytes makes the unpack of line 160
    raise [struct.error]. *)
Theorem decode_eddystone_tlm_needs_26
    b0 b1 b2 b3 b4 b5 b6 b7 b8 b9 b10 b11 b12 rest :
  let ad_struct :=
    b0 :: b1 :: b2 :: b3 :: b4 :: b5 :: b6 :: b7 :: b8 :: b9 :: b10 :: b11
       :: b12 :: rest in
  5 <= int_of_byte b0 + 1 <= len ad_struct ->
  uint_of LittleEndian [b6; b7] = 0xFEAA ->
  int_of_byte b9 = 0x16 ->
  int_of_byte b12 = 0x20 ->
  int_of_byte b8 = 0x11 ->
  len ad_struct < 26 ->
  decode_eddystone ad_struct = Raise StructError.
Proof.
  intros ad_struct Hg Hu Ht Hs He Hl. unfold ad_struct.
  rewrite decode_recognised, select_tlm by done.
  by apply decode_tlm_raises_short.
Qed.

Lemma decode_eddystone_tlm_needs_26_witness :
  decode_eddystone
    [x0c; x01; x06; x03; x03; xaa; xaa; xfe; x11; x16; xaa; xfe; x20]
  = Raise StructError.
Proof.
  apply (decode_eddystone_tlm_needs_26
           x0c x01 x06 x03 x03 xaa xaa xfe x11 x16 xaa xfe x20 []).
  - vm_compute. by split.
  - vm_compute. reflexivity.
  - vm_compute. reflexivity.
  - vm_compute. reflexivity.
  - vm_compute. reflexivity.
  - vm_compute. reflexivity.
Defined.

(** ** What the decoder returns *)

(** X5: on a recognised UID header followed by 17 payload bytes, the
    decoder returns [rssi_ref] as the signed reading of byte 13, and the
    namespace and the instance as the hexadecimal renderings of bytes
    14..23 and 24..29, whatever follows. *)
Theorem decode_eddystone_uid_payload
    b0 b1 b2 b3 b4 b5 b6 b7 b8 b9 b10 b11 b12
    r n0 n1 n2 n3 n4 n5 n6 n7 n8 n9 i0 i1 i2 i3 i4 i5 tail :
  let ad_struct :=
    b0 :: b1 :: b2 :: b3 :: b4 :: b5 :: b6 :: b7 :: b8 :: b9 :: b10 :: b11
       :: b12 :: r
       :: n0 :: n1 :: n2 :: n3 :: n4 :: n5 :: n6 :: n7 :: n8 :: n9
       :: i0 :: i1 :: i2 :: i3 :: i4 :: i5 :: tail in
  5 <= int_of_byte b0 + 1 <= len ad_struct ->
  uint_of LittleEndian [b6; b7] = 0xFEAA ->
  int_of_byte b9 = 0x16 ->
  int_of_byte b12 = 0x00 ->
  int_of_byte b8 = 0x15 \/ int_of_byte b8 = 0x17 ->
  decode_eddystone ad_struct =
    Ok (<["rssi_ref" := VInt (signed 8 (int_of_byte r))]>
          (<["instance" := VStr (hex_join [i0; i1; i2; i3; i4; i5])]>
             (<["namespace" :=
                  VStr (hex_join [n0; n1; n2; n3; n4; n5; n6; n7; n8; n9])]>
                (<["sub_type" := VStr "uid"]>
                   (eddystone (int_of_byte b0 + 1)))))).
Proof.
  intros ad_struct Hg Hu Ht Hs He. subst ad_struct.
  rewrite decode_recognised, select_uid, decode_uid_eq by done. cbv zeta.
  change (slice _ 13 30)
    with (r :: [n0; n1; n2; n3; n4; n5; n6; n7; n8; n9]
            ++ [i0; i1; i2; i3; i4; i5]).
  change (take 1 _) with [r]. by rewrite uint_of_1.
Qed.

Lemma decode_eddystone_uid_payload_witness :
  decode_eddystone
    [x1f; x01; x06; x03; x03; xaa; xaa; xfe; x17; x16; xaa; xfe; x00;
     x7f; xde; xad; xbe; xef; x00; x11; x22; x33; x44; x55;
     xca; xfe; xba; xbe; x00; x01; x00; x00]
  = Ok (<["rssi_ref" := VInt 127]>
          (<["instance" := VStr "CAFEBABE0001"]>
             (<["namespace" := VStr "DEADBEEF001122334455"]>
                (<["sub_type" := VStr "uid"]> (eddystone 32))))).
Proof.
  apply (decode_eddystone_uid_payload
           x1f x01 x06 x03 x03 xaa xaa xfe x17 x16 xaa xfe x00
           x7f xde xad xbe xef x00 x11 x22 x33 x44 x55
           xca xfe xba xbe x00 x01 [x00; x00]).
  - vm_compute. by split.
  - vm_compute. reflexivity.
  - vm_compute. reflexivity.
  - vm_compute. reflexivity.
  - right. vm_compute. reflexivity.
Defined.

Lemma recognised_bytes (b6 b7 b9 : byte) :
  uint_of LittleEndian [b6; b7] = 0xFEAA /\ int_of_byte b9 = 0x16
  <-> b6 = xaa /\ b7 = xfe /\ b9 = x16.
Proof.
  split.
  - intros [Hu Ht]. cbn [uint_of foldr] in Hu.
    pose proof (int_of_byte_range b6). pose proof (int_of_byte_range b7).
    repeat split; apply int_of_byte_inj.
    + change (int_of_byte xaa) with 0xAA. lia.
    + change (int_of_byte xfe) with 0xFE. lia.
    + exact Ht.
  - by intros (-> & -> & ->).
Qed.

(** X6: on a buffer of at least 13 bytes that passes the length gate, a
    returned dictionary is tagged ['eddystone'] exactly when bytes 6, 7
    and 9 are [AA], [FE] and [16]; no other byte takes part in the
    recognition. *)
Theorem decode_eddystone_recognised_bytes
    b0 b1 b2 b3 b4 b5 b6 b7 b8 b9 b10 b11 b12 rest ret :
  let ad_struct :=
    b0 :: b1 :: b2 :: b3 :: b4 :: b5 :: b6 :: b7 :: b8 :: b9 :: b10 :: b11
       :: b12 :: rest in
  5 <= int_of_byte b0 + 1 <= len ad_struct ->
  decode_eddystone ad_struct = Ok ret ->
  (ret !! "type" = Some (VStr "eddystone")
   <-> b6 = xaa /\ b7 = xfe /\ b9 = x16).
Proof.
  intros ad_struct Hg H. subst ad_struct. rewrite <- recognised_bytes.
  destruct (decide (uint_of LittleEndian [b6; b7] = 0xFEAA
                    /\ int_of_byte b9 = 0x16)) as [[Hu Ht]|Hn].
  - split; [done|intros _]. rewrite decode_recognised in H by done.
    by rewrite (select_keeps _ _ _ _ _ "type" H); [|left].
  - rewrite decode_not_recognised in H by done.
    injection H as <-. split; [done|by intros ?].
Qed.

Lemma decode_eddystone_recognised_bytes_witness :
  eddystone 13 !! "type" = Some (VStr "eddystone")
  <-> xaa = xaa /\ xfe = xfe /\ x16 = x16.
Proof.
  apply (decode_eddystone_recognised_bytes
           x0c x01 x06 x03 x03 xaa xaa xfe x03 x16 xaa xfe x30 []).
  - vm_compute. by split.
  - vm_compute. reflexivity.
Defined.

(** A buffer whose header unpack succeeds has at least 13 bytes. *)
Lemma unpack_common_long (ad_struct : list byte) (ec : EddystoneCommon.t) :
  struct_unpack LittleEndian EddystoneCommon.fmt (slice ad_struct 0 13)
    ≫= EddystoneCommon._make = Ok ec ->
  13 <= len ad_struct.
Proof.
  intros H. destruct (Z.lt_ge_cases (len ad_struct) 13) as [Hl|Hl]; [|done].
  by rewrite unpack_common_short in H.
Qed.

(** Every way the decoder can return, on a non-empty buffer. *)
Lemma decode_inv (b0 : byte) (rest : list byte) (ret : dict) :
  decode_eddystone (b0 :: rest) = Ok ret ->
  let ad_struct := b0 :: rest in
  let n := int_of_byte b0 + 1 in
  ret = unknown n
  \/ (5 <= n <= len ad_struct /\ 13 <= len ad_struct
      /\ (ret = eddystone n
          \/ decode_uid ad_struct (eddystone n) = Ok ret
          \/ decode_tlm ad_struct (eddystone n) = Ok ret)).
Proof.
  rewrite decode_cons. cbv zeta.
  destruct (_ && _) eqn:Hg; [|intros [= <-]; by left].
  apply andb_true_iff in Hg as [Hg1%Z.leb_le Hg2%Z.leb_le].
  destruct (_ ≫= EddystoneCommon._make) as [ec|e] eqn:Hec; [|done].
  apply unpack_common_long in Hec.
  rewrite bind_Ok. destruct (_ && _); [|intros [= <-]; by left].
  intros H. right. repeat split; [done..|].
  apply select_inv in H as [(_ & _ & H)|[(_ & _ & H)| ->]]; auto.
Qed.

(** X7: on a non-empty buffer a returned dictionary has
    [1 <= adstruct_bytes <= 256]; it is either exactly
    [{'adstruct_bytes': n, 'type': None}] or it is tagged ['eddystone'],
    and in the second case the buffer has at least 13 bytes and
    [5 <= adstruct_bytes <= len(ad_struct)], so that the caller's cursor
    stays inside the buffer. *)
Theorem decode_eddystone_result_shape (b0 : byte) (rest : list byte) (ret : dict) :
  decode_eddystone (b0 :: rest) = Ok ret ->
  let n := int_of_byte b0 + 1 in
  1 <= n <= 256
  /\ ret !! "adstruct_bytes" = Some (VInt n)
  /\ (ret = unknown n
      \/ (ret !! "type" = Some (VStr "eddystone")
          /\ 5 <= n <= len (b0 :: rest) /\ 13 <= len (b0 :: rest))).
Proof.
  intros H n. pose proof (int_of_byte_range b0).
  split; [subst n; lia|].
  apply decode_inv in H. cbv zeta in H. fold n in H.
  destruct H as [->|(Hg & Hl & [->|[H|H]])].
  - split; [done|by left].
  - split; [done|]. right. split; [done|]. by split.
  - rewrite !(decode_uid_keeps _ _ _ _ H) by auto.
    split; [done|]. right. split; [done|]. by split.
  - rewrite !(decode_tlm_keeps _ _ _ _ H) by auto.
    split; [done|]. right. split; [done|]. by split.
Qed.

Lemma decode_eddystone_result_shape_witness :
  1 <= 30 <= 256
  /\ uid_result 30 !! "adstruct_bytes" = Some (VInt 30)
  /\ (uid_result 30 = unknown 30
      \/ (uid_result 30 !! "type" = Some (VStr "eddystone")
          /\ 5 <= 30 <= len (uid_frame x15) /\ 13 <= len (uid_frame x15))).
Proof.
  apply (decode_eddystone_result_shape x1d
           [x01; x06; x03; x03; xaa; xaa; xfe; x15; x16; xaa; xfe; x00;
            xec; x01; x02; x03; x04; x05; x06; x07; x08; x09; x0a;
            x0b; x0c; x0d; x0e; x0f; x10] (uid_result 30)).
  vm_compute. reflexivity.
Defined.

Lemma unknown_lookup (n : Z) (k : string) :
  k <> "type" -> k <> "adstruct_bytes" -> unknown n !! k = None.
Proof.
  intros H1 H2. unfold unknown.
  by rewrite lookup_insert_ne, lookup_singleton_ne.
Qed.

Lemma eddystone_lookup (n : Z) (k : string) :
  k <> "type" -> k <> "adstruct_bytes" -> eddystone n !! k = None.
Proof.
  intros H1 H2. unfold eddystone, unknown.
  by rewrite !lookup_insert_ne, lookup_singleton_ne.
Qed.

(** X8: a returned dictionary with sub type ['uid'] comes from a buffer
    of at least 30 bytes; it is tagged ['eddystone'], its namespace and
    instance are strings of 20 and 12 characters, its [rssi_ref] lies in
    [-128..127], and it has none of the TLM entries. *)
Theorem decode_eddystone_uid_fields (b0 : byte) (rest : list byte) (ret : dict) :
  decode_eddystone (b0 :: rest) = Ok ret ->
  ret !! "sub_type" = Some (VStr "uid") ->
  30 <= len (b0 :: rest)
  /\ ret !! "type" = Some (VStr "eddystone")
  /\ (exists ns inst r,
        ret !! "namespace" = Some (VStr ns) /\ String.length ns = 20%nat
        /\ ret !! "instance" = Some (VStr inst) /\ String.length inst = 12%nat
        /\ ret !! "rssi_ref" = Some (VInt r) /\ -128 <= r <= 127)
  /\ ret !! "tlm_version" = None.
Proof.
  intros H Hsub. apply decode_inv in H. cbv zeta in H.
  destruct H as [->|(Hg & Hl & [->|[H|H]])].
  - by rewrite unknown_lookup in Hsub.
  - by rewrite eddystone_lookup in Hsub.
  - rewrite decode_uid_eq in H. cbv zeta in H.
    destruct (_ =? 17)%nat eqn:E; [|done]. apply Nat.eqb_eq in E.
    injection H as <-. pose proof E as E'. rewrite slice_length in E'.
    split; [unfold len; lia|]. split; [by simplify_map_eq|]. split.
    + eexists _, _, _. split; [by simplify_map_eq|].
      split; [rewrite hex_join_length, length_take, length_drop; lia|].
      split; [by simplify_map_eq|].
      split; [rewrite hex_join_length, length_take, length_drop; lia|].
      split; [by simplify_map_eq|].
      apply signed_8_range, (uint_of_take_bound BigEndian 1).
    + rewrite !lookup_insert_ne by done. by apply eddystone_lookup.
  - by rewrite (decode_tlm_sub_type _ _ _ H) in Hsub.
Qed.

Lemma decode_eddystone_uid_fields_witness :
  30 <= len (uid_frame x17)
  /\ uid_result 30 !! "type" = Some (VStr "eddystone")
  /\ (exists ns inst r,
        uid_result 30 !! "namespace" = Some (VStr ns) /\ String.length ns = 20%nat
        /\ uid_result 30 !! "instance" = Some (VStr inst)
        /\ String.length inst = 12%nat
        /\ uid_result 30 !! "rssi_ref" = Some (VInt r) /\ -128 <= r <= 127)
  /\ uid_result 30 !! "tlm_version" = None.
Proof.
  apply (decode_eddystone_uid_fields x1d
           [x01; x06; x03; x03; xaa; xaa; xfe; x17; x16; xaa; xfe; x00;
            xec; x01; x02; x03; x04; x05; x06; x07; x08; x09; x0a;
            x0b; x0c; x0d; x0e; x0f; x10] (uid_result 30)).
  - vm_compute. reflexivity.
  - vm_compute. reflexivity.
Defined.

(** X9: a returned dictionary with sub type ['tlm'] comes from a buffer
    of at least 26 bytes; it is tagged ['eddystone'], its [tlm_version]
    lies in [0..255], it has no UID entry, and it has [adv_cnt] (a value
    in [0 .. 2^32 - 1]), [vbatt], [temp] and [sec_cnt] when the version
    is 0 and none of them otherwise. *)
Theorem decode_eddystone_tlm_fields (b0 : byte) (rest : list byte) (ret : dict) :
  decode_eddystone (b0 :: rest) = Ok ret ->
  ret !! "sub_type" = Some (VStr "tlm") ->
  26 <= len (b0 :: rest)
  /\ ret !! "type" = Some (VStr "eddystone")
  /\ ret !! "namespace" = None /\ ret !! "instance" = None
  /\ ret !! "rssi_ref" = None
  /\ exists v,
       ret !! "tlm_version" = Some (VInt v) /\ 0 <= v <= 255
       /\ (v = 0 ->
           exists b t a s,
             ret !! "vbatt" = Some (VFloat b) /\ ret !! "temp" = Some (VFloat t)
             /\ ret !! "adv_cnt" = Some (VInt a) /\ 0 <= a < 2 ^ 32
             /\ ret !! "sec_cnt" = Some (VFloat s))
       /\ (v <> 0 ->
           ret !! "vbatt" = None /\ ret !! "temp" = None
           /\ ret !! "adv_cnt" = None /\ ret !! "sec_cnt" = None).
Proof.
  intros H Hsub. apply decode_inv in H. cbv zeta in H.
  destruct H as [->|(Hg & Hl & [->|[H|H]])].
  - by rewrite unknown_lookup in Hsub.
  - by rewrite eddystone_lookup in Hsub.
  - by rewrite (decode_uid_sub_type _ _ _ H) in Hsub.
  - split; [by eapply decode_tlm_returns_long|].
    split; [by rewrite (decode_tlm_keeps _ _ _ _ H); [|left]|].
    apply decode_tlm_inv in H as (v & b & t & a & s & Hv & Ha & ->).
    cbv zeta. destruct (Z.eqb_spec v 0) as [->|Hv0].
    + rewrite !lookup_insert_ne, !eddystone_lookup by done.
      split; [done|]. split; [done|]. split; [done|].
      exists 0. split; [by simplify_map_eq|]. split; [lia|]. split; [|done].
      intros _. eexists _, _, a, _.
      split; [by simplify_map_eq|]. split; [by simplify_map_eq|].
      split; [by simplify_map_eq|]. split; [done|]. by simplify_map_eq.
    + rewrite !lookup_insert_ne, !eddystone_lookup by done.
      split; [done|]. split; [done|]. split; [done|].
      exists v. split; [by simplify_map_eq|]. split; [lia|]. split; [done|].
      intros _. by rewrite !lookup_insert_ne, !eddystone_lookup by done.
Qed.

Lemma decode_eddystone_tlm_fields_witness :
  26 <= len (tlm_frame x01)
  /\ exists ret,
       decode_eddystone (tlm_frame x01) = Ok ret
       /\ ret !! "tlm_version" = Some (VInt 1)
       /\ ret !! "rssi_ref" = None
       /\ ret !! "adv_cnt" = None.
Proof.
  assert (decode_eddystone (tlm_frame x01)
          = Ok (<["tlm_version" := VInt 1]>
                  (<["sub_type" := VStr "tlm"]> (eddystone 26)))) as H
    by (vm_compute; reflexivity).
  destruct (decode_eddystone_tlm_fields x19
              [x01; x06; x03; x03; xaa; xaa; xfe; x11; x16; xaa; xfe; x20;
               x01; x0c; xe4; x08; x00; x00; x00; x00; x0a; x00; x00; x00; x64]
              _ H eq_refl)
    as (Hl & _ & _ & _ & Hr & v & Hv & _ & _ & Hn).
  split; [exact Hl|]. eexists. split; [exact H|].
  split; [vm_compute; reflexivity|]. split; [exact Hr|].
  vm_compute. reflexivity.
Defined.

(** X10: whatever the input, a returned dictionary has no ['url'] and no
    ['rssi_fudge'] entry: the URL branch never completes. *)
Theorem decode_eddystone_no_url_entries (ad_struct : list byte) (ret : dict) :
  decode_eddystone ad_struct = Ok ret ->
  ret !! "url" = None /\ ret !! "rssi_fudge" = None.
Proof.
  destruct ad_struct as [|b0 rest]; [done|].
  intros H. apply decode_inv in H. cbv zeta in H.
  destruct H as [->|(Hg & Hl & [->|[H|H]])].
  - by rewrite !unknown_lookup.
  - by rewrite !eddystone_lookup.
  - rewrite decode_uid_eq in H. cbv zeta in H.
    destruct (_ =? 17)%nat; [|done]. injection H as <-.
    by rewrite !lookup_insert_ne, !eddystone_lookup.
  - apply decode_tlm_inv in H as (v & b & t & a & s & _ & _ & ->).
    cbv zeta. destruct (v =? 0); by rewrite !lookup_insert_ne, !eddystone_lookup.
Qed.

Lemma decode_eddystone_no_url_entries_witness :
  uid_result 30 !! "url" = None /\ uid_result 30 !! "rssi_fudge" = None.
Proof.
  apply (decode_eddystone_no_url_entries (uid_frame x15) (uid_result 30)).
  vm_compute. reflexivity.
Defined.

(** ** The hexadecimal strings *)

Lemma format_02X_append (i : Z) (s : string) :
  format_02X i +:+ s
  = String (hex_digit (i / 16)) (String (hex_digit (i mod 16)) s).
Proof. reflexivity. Qed.

Lemma hex_join_inj (bs bs' : list byte) : hex_join bs = hex_join bs' -> bs = bs'.
Proof.
  revert bs'. induction bs as [|b bs IH]; intros [|b' bs'] H.
  - done.
  - by rewrite hex_join_cons, format_02X_append in H.
  - by rewrite hex_join_cons, format_02X_append in H.
  - rewrite !hex_join_cons, !format_02X_append in H.
    injection H as Hh Hl Ht. f_equal; [|by apply IH].
    apply format_02X_inj. unfold format_02X. by rewrite Hh, Hl.
Qed.

(** X11: the rendering of lines 113 and 118 writes two characters per
    byte and loses nothing: two byte strings with the same rendering are
    equal. *)
Theorem hex_join_faithful :
  (forall bs, String.length (hex_join bs) = (2 * length bs)%nat)
  /\ (forall bs bs', hex_join bs = hex_join bs' -> bs = bs').
Proof. split; [apply hex_join_length | apply hex_join_inj]. Qed.

Lemma hex_join_faithful_witness :
  String.length (hex_join [x0b; x0c; x0d; x0e; x0f; x10]) = 12%nat
  /\ [x0b; x0c] = [x0b; x0c].
Proof.
  split.
  - apply (proj1 hex_join_faithful [x0b; x0c; x0d; x0e; x0f; x10]).
  - apply (proj2 hex_join_faithful [x0b; x0c] [x0b; x0c]). reflexivity.
Defined.

(** ** The bytes the decoder reads *)

Lemma slice_app_le {A} (l k : list A) (lo hi : nat) :
  (hi <= length l)%nat -> slice (l ++ k) lo hi = slice l lo hi.
Proof.
  intros H. unfold slice. destruct (Nat.le_gt_cases lo (length l)) as [Hlo|Hlo].
  - rewrite drop_app_le by done. apply take_app_le. rewrite length_drop. lia.
  - by replace (hi - lo)%nat with 0%nat by lia.
Qed.

Lemma decode_uid_ext (ad1 ad2 : list byte) (ret : dict) :
  slice ad1 13 30 = slice ad2 13 30 -> decode_uid ad1 ret = decode_uid ad2 ret.
Proof. intros H. by rewrite !decode_uid_eq, H. Qed.

Lemma decode_tlm_ext (ad1 ad2 : list byte) (ret : dict) :
  slice ad1 13 26 = slice ad2 13 26 -> decode_tlm ad1 ret = decode_tlm ad2 ret.
Proof. intros H. by rewrite !decode_tlm_eq, H. Qed.

Lemma select_ext (ad1 ad2 : list byte) n ec ret :
  slice ad1 13 30 = slice ad2 13 30 ->
  slice ad1 13 26 = slice ad2 13 26 ->
  slice ad1 13 20 = slice ad2 13 20 ->
  select_sub_type ad1 n ec ret = select_sub_type ad2 n ec ret.
Proof.
  intros H30 H26 H20. unfold select_sub_type.
  rewrite (decode_uid_ext ad1 ad2) by done.
  destruct (if (_ =? 0x00) && _ then _ else _) as [r1|e]; [|done].
  rewrite !bind_Ok, !decode_url_raises, H20.
  destruct (if _ =? 0x10 then _ else _) as [r2|e]; [|done].
  rewrite !bind_Ok. by rewrite (decode_tlm_ext ad1 ad2).
Qed.

(** X12: the outcome does not depend on the bytes past index 29.  Two
    buffers that share their first 30 bytes, and on which the announced
    length fits or does not fit alike, give the same result (or the same
    exception). *)
Theorem decode_eddystone_reads_30_bytes
    (b0 : byte) (pre tail1 tail2 : list byte) :
  length (b0 :: pre) = 30%nat ->
  (int_of_byte b0 + 1 <= len (b0 :: pre ++ tail1)
   <-> int_of_byte b0 + 1 <= len (b0 :: pre ++ tail2)) ->
  decode_eddystone (b0 :: pre ++ tail1) = decode_eddystone (b0 :: pre ++ tail2).
Proof.
  intros Hl Hg. rewrite !decode_cons. cbv zeta.
  assert ((int_of_byte b0 + 1 <=? len (b0 :: pre ++ tail1))
          = (int_of_byte b0 + 1 <=? len (b0 :: pre ++ tail2))) as ->.
  { destruct (Z.leb_spec (int_of_byte b0 + 1) (len (b0 :: pre ++ tail1))),
             (Z.leb_spec (int_of_byte b0 + 1) (len (b0 :: pre ++ tail2)));
      (done || lia). }
  destruct (_ && _); [|done].
  change (b0 :: pre ++ tail1) with ((b0 :: pre) ++ tail1).
  change (b0 :: pre ++ tail2) with ((b0 :: pre) ++ tail2).
  rewrite !(slice_app_le _ _ 0 13) by lia.
  destruct (_ ≫= EddystoneCommon._make) as [ec|e]; [|done].
  rewrite !bind_Ok. destruct (_ && _); [|done].
  apply select_ext; by rewrite !slice_app_le by lia.
Qed.

Lemma decode_eddystone_reads_30_bytes_witness :
  decode_eddystone (uid_frame x15 ++ [])
  = decode_eddystone (uid_frame x15 ++ [x02; x01; x06; x1a; xff]).
Proof.
  apply (decode_eddystone_reads_30_bytes x1d
           [x01; x06; x03; x03; xaa; xaa; xfe; x15; x16; xaa; xfe; x00;
            xec; x01; x02; x03; x04; x05; x06; x07; x08; x09; x0a;
            x0b; x0c; x0d; x0e; x0f; x10] [] [x02; x01; x06; x1a; xff]).
  - reflexivity.
  - vm_compute. split; intros _; discriminate.
Defined.

Lemma select_header_ext (ad_struct : list byte) n (ec ec' : EddystoneCommon.t) ret :
  EddystoneCommon.sub_type ec = EddystoneCommon.sub_type ec' ->
  EddystoneCommon.eddy_len ec = EddystoneCommon.eddy_len ec' ->
  select_sub_type ad_struct n ec ret = select_sub_type ad_struct n ec' ret.
Proof. intros Hs He. unfold select_sub_type. by rewrite Hs, He. Qed.

(** X13: the header bytes 1..5, 10 and 11 ([sd_length], the flags, the
    UUID list fields and [eddy_uuid_2]) are unpacked but never tested:
    changing them changes neither the result nor the exception. *)
Theorem decode_eddystone_ignores_header_bytes
    b0 b1 b2 b3 b4 b5 b6 b7 b8 b9 b10 b11 b12
    b1' b2' b3' b4' b5' b10' b11' rest :
  decode_eddystone
    (b0 :: b1 :: b2 :: b3 :: b4 :: b5 :: b6 :: b7 :: b8 :: b9 :: b10 :: b11
        :: b12 :: rest)
  = decode_eddystone
      (b0 :: b1' :: b2' :: b3' :: b4' :: b5' :: b6 :: b7 :: b8 :: b9 :: b10'
          :: b11' :: b12 :: rest).
Proof.
  rewrite !decode_cons. cbv zeta.
  change (len (b0 :: b1' :: b2' :: b3' :: b4' :: b5' :: b6 :: b7 :: b8 :: b9
                  :: b10' :: b11' :: b12 :: rest))
    with (len (b0 :: b1 :: b2 :: b3 :: b4 :: b5 :: b6 :: b7 :: b8 :: b9
                  :: b10 :: b11 :: b12 :: rest)).
  destruct (_ && _); [|done].
  rewrite !unpack_common, !bind_Ok.
  cbn [common_header EddystoneCommon.eddystone_uuid EddystoneCommon.sd_type].
  destruct (_ && _); [|done].
  rewrite (select_header_ext _ _ _ (common_header b0 b1' b2' b3' b4' b5' b6 b7
                                      b8 b9 b10' b11' b12)) by done.
  by apply select_ext.
Qed.

(** ** The exceptions that escape *)

Lemma unpack_common_cases (ad_struct : list byte) :
  (exists ec,
     struct_unpack LittleEndian EddystoneCommon.fmt (slice ad_struct 0 13)
       ≫= EddystoneCommon._make = Ok ec)
  \/ struct_unpack LittleEndian EddystoneCommon.fmt (slice ad_struct 0 13)
       ≫= EddystoneCommon._make = Raise StructError.
Proof.
  unfold struct_unpack. destruct (_ =? _)%nat; [left|by right].
  rewrite bind_Ok. by eexists.
Qed.

Lemma select_raises (ad_struct : list byte) n ec ret e :
  select_sub_type ad_struct n ec ret = Raise e ->
  e = StructError \/ (e = IndexError /\ len ad_struct = 15).
Proof.
  unfold select_sub_type. intros H.
  destruct (if (_ =? 0x00) && _ then _ else _) as [r1|e1] eqn:E1.
  - rewrite bind_Ok in H. destruct (_ =? 0x10).
    + rewrite decode_url_raises in H.
      destruct (_ =? 2)%nat eqn:E; injection H as <-; [right|by left].
      split; [done|]. apply Nat.eqb_eq in E. rewrite slice_length in E.
      unfold len. lia.
    + rewrite bind_Ok in H. destruct ((_ =? 0x20) && _); [|done].
      rewrite decode_tlm_eq in H. cbv zeta in H.
      destruct (_ =? 13)%nat; [|injection H as <-; by left].
      by destruct (uint_of BigEndian _ =? 0).
  - injection H as <-. destruct ((_ =? 0x00) && _); [|done].
    rewrite decode_uid_eq in E1. cbv zeta in E1.
    destruct (_ =? 17)%nat; [done|]. injection E1 as <-. by left.
Qed.

(** X14: the only exceptions that leave the decoder are [IndexError] and
    [struct.error].  [IndexError] comes from an empty buffer or from a
    15-byte buffer (the URL branch); [struct.error] needs a buffer of at
    least 5 bytes.  The [TypeError] of [ord] in the URL loop never
    surfaces. *)
Theorem decode_eddystone_exceptions (ad_struct : list byte) (e : exn) :
  decode_eddystone ad_struct = Raise e ->
  (e = IndexError /\ (ad_struct = [] \/ len ad_struct = 15))
  \/ (e = StructError /\ 5 <= len ad_struct).
Proof.
  destruct ad_struct as [|b0 rest].
  { intros [= <-]. left. split; [done|by left]. }
  rewrite decode_cons. cbv zeta.
  destruct (_ && _) eqn:Hg; [|done].
  apply andb_true_iff in Hg as [Hg1%Z.leb_le Hg2%Z.leb_le].
  destruct (unpack_common_cases (b0 :: rest)) as [[ec ->]| ->].
  - rewrite bind_Ok. destruct (_ && _); [|done].
    intros [->|[-> Hl]]%select_raises.
    + right. split; [done|lia].
    + left. split; [done|by right].
  - intros [= <-]. right. split; [done|lia].
Qed.

Lemma decode_eddystone_exceptions_witness :
  (IndexError = IndexError /\ (url_frame_15 = [] \/ len url_frame_15 = 15))
  \/ (IndexError = StructError /\ 5 <= len url_frame_15).
Proof.
  apply (decode_eddystone_exceptions url_frame_15 IndexError).
  vm_compute. reflexivity.
Defined.
